(** * maubot-fedora: the Fedora plugin of [fedora/__init__.py]

    A shallow embedding of the lookup and reply logic of the plugin:
    the identity resolver [_get_fasuser] with its two nested helpers,
    the group queries, the Pagure issue client and the command handlers
    that reply to the chat room.

    Python strings are modelled as [string] (the UTF-8 bytes of the
    text).  Every character the source's patterns and separators name
    is ASCII, and no UTF-8 continuation byte equals an ASCII character,
    so matching and splitting on bytes agrees with matching on code
    points.  Iterating over a string goes by code points: [chars]
    keeps the bytes of one code point together. *)

From Stdlib Require Import String Ascii List ZArith Lia Bool DecimalString.
Import ListNotations.
Open Scope string_scope.

(** ** Strings *)

Module PyStr.

(** The line feed character. *)
Definition LF : ascii := "010"%char.

Definition lf : string := String LF EmptyString.

(** The double quote character. *)
Definition DQ : ascii := "034"%char.

(** [str(n)] for a length, and [str(z)] for an integer. *)
Definition of_nat (n : nat) : string := NilZero.string_of_uint (Nat.to_uint n).

Definition of_Z (z : Z) : string := NilZero.string_of_int (Z.to_int z).

(** [sep.join(items)] for items that are all strings. *)
Definition join (sep : string) (items : list string) : string :=
  String.concat sep items.

(** Remove the literal [p] from the front of [s]. *)
Fixpoint strip_prefix (p s : string) : option string :=
  match p with
  | EmptyString => Some s
  | String a p' =>
      match s with
      | EmptyString => None
      | String b s' => if Ascii.eqb a b then strip_prefix p' s' else None
      end
  end.

(** The longest prefix of [s] whose characters all satisfy [keep]. *)
Fixpoint take_while (keep : ascii -> bool) (s : string) : string :=
  match s with
  | EmptyString => EmptyString
  | String c r => if keep c then String c (take_while keep r) else EmptyString
  end.

(** [s.split] on the one-space separator: every single space splits,
    and the result is never the empty list. *)
Fixpoint split_space (s : string) : list string :=
  match s with
  | EmptyString => [EmptyString]
  | String c r =>
      if Ascii.eqb c " "%char then EmptyString :: split_space r
      else match split_space r with
           | [] => [String c EmptyString]
           | w :: ws => String c w :: ws
           end
  end.

(** A continuation byte of UTF-8, of the form 10xxxxxx. *)
Definition is_continuation (c : ascii) : bool :=
  match c with
  | Ascii _ _ _ _ _ _ b6 b7 => b7 && negb b6
  end.

Definition starts_with_continuation (s : string) : bool :=
  match s with
  | String c _ => is_continuation c
  | EmptyString => false
  end.

(** The characters of a string, as one-character strings: each lead
    byte with the continuation bytes that follow it. *)
Fixpoint chars (s : string) : list string :=
  match s with
  | EmptyString => []
  | String c r =>
      if starts_with_continuation r then
        match chars r with
        | w :: ws => String c w :: ws
        | [] => [String c EmptyString]
        end
      else String c EmptyString :: chars r
  end.

End PyStr.

(** ** Regular expressions of the source

    The three patterns of the source are matched by hand-written
    matchers; [findall_from] is the scan of [re.findall], which tries
    the pattern at every position from the left and resumes after the
    end of each match.  None of the patterns matches the empty string. *)

Module Re.
Import PyStr.

(** [.] matches everything but the line feed. *)
Definition dot (c : ascii) : bool := negb (Ascii.eqb c LF).

(** [match_at s] is the captured groups and the length of the match of
    the pattern at the start of [s].  [skip] counts the characters of
    the last match that are still to be passed over. *)
Fixpoint findall_from {G : Type} (match_at : string -> option (G * nat))
         (skip : nat) (s : string) : list G :=
  match skip with
  | S k =>
      match s with
      | EmptyString => []
      | String _ r => findall_from match_at k r
      end
  | O =>
      match match_at s with
      | Some (g, n) =>
          g :: match s with
               | EmptyString => []
               | String _ r => findall_from match_at (n - 1) r
               end
      | None =>
          match s with
          | EmptyString => []
          | String _ r => findall_from match_at 0 r
          end
      end
  end.

Definition findall {G : Type} (match_at : string -> option (G * nat))
           (s : string) : list G :=
  findall_from match_at 0 s.

(** Split at the last colon of [s]. *)
Fixpoint rsplit_colon (s : string) : option (string * string) :=
  match s with
  | EmptyString => None
  | String c r =>
      match rsplit_colon r with
      | Some (a, b) => Some (String c a, b)
      | None => if Ascii.eqb c ":"%char then Some (EmptyString, r) else None
      end
  end.

(** The chat-identity pattern at the start of [s]: an at sign, a
    greedy group of dots, a colon and a second greedy group of dots.
    After the at sign the first group runs to the end of the line and
    gives characters back until a colon follows, so it stops at the
    last colon of the line; the second group takes the rest of the
    line. *)
Definition match_mxid_at (s : string) : option ((string * string) * nat) :=
  match s with
  | String c r =>
      if Ascii.eqb c "@"%char then
        let line := take_while dot r in
        match rsplit_colon line with
        | Some g => Some (g, S (String.length line))
        | None => None
        end
      else None
  | EmptyString => None
  end.

(** [re.findall] of the chat-identity pattern over [s]. *)
Definition findall_mxid (s : string) : list (string * string) :=
  findall match_mxid_at s.

(** [re.search] of the same pattern without its groups, as a truth
    value. *)
Definition search_mxid (s : string) : bool :=
  match findall_mxid s with
  | [] => false
  | _ :: _ => true
  end.

Definition is_quote (c : ascii) : bool :=
  Ascii.eqb c "'"%char || Ascii.eqb c DQ.

(** The negated class of the mention pattern: anything but a single
    quote, a double quote, a space and [>]. *)
Definition link_char (c : ascii) : bool :=
  negb (is_quote c || Ascii.eqb c " "%char || Ascii.eqb c ">"%char).

(** The mention pattern at the start of [s]: [href=], an optional
    single or double quote, [http[s]?://matrix.to/#/] and one or more
    characters of [link_char], captured.  Each optional item is taken
    when it is there: leaving a quote, or an [s], in place would make
    the literal that follows fail on it.  The dot of [matrix.to] is not escaped in the source
    and matches any character but the line feed.  The final class is
    greedy and ends the pattern, so it takes the longest run. *)
Definition match_mention_at (s : string) : option (string * nat) :=
  match strip_prefix "href=" s with
  | None => None
  | Some r1 =>
      let r2 := match r1 with
                | String c r => if is_quote c then r else r1
                | EmptyString => r1
                end in
      match strip_prefix "http" r2 with
      | None => None
      | Some r3 =>
          let r4 := match r3 with
                    | String c r => if Ascii.eqb c "s"%char then r else r3
                    | EmptyString => r3
                    end in
          match strip_prefix "://matrix" r4 with
          | Some (String c r6) =>
              if dot c then
                match strip_prefix "to/#/" r6 with
                | Some r7 =>
                    match take_while link_char r7 with
                    | EmptyString => None
                    | g => Some (g, String.length s - String.length r7
                                    + String.length g)
                    end
                | None => None
                end
              else None
          | _ => None
          end
      end
  end.

(** [re.findall] of the mention pattern over [body]. *)
Definition findall_mention (body : string) : list string :=
  findall match_mention_at body.

End Re.

Import PyStr Re.

(** ** Python values and exceptions *)

(** The dynamically typed values the plugin handles: what the directory
    service and the issue tracker send back as JSON, and strings. *)
#[warnings="-register-all"]
Inductive value : Type :=
| VNone
| VBool (b : bool)
| VInt (z : Z)
| VStr (s : string)
| VList (items : list value)
| VDict (entries : list (string * value)).

(** The exceptions that can travel through the plugin.  [InfoGatherError]
    is the plugin's own class; [ClientSetupError] and [APIError] are
    those of the directory-service client, the first with its text
    rendering and the second with its status code; the others are
    Python's built-ins, and [OtherError] is any other exception a
    collaborator raises, by name. *)
Inductive exn : Type :=
| InfoGatherError (message : string)
| ClientSetupError (text : string)
| APIError (code : Z) (text : string)
| ValueError
| IndexError
| KeyError (key : string)
| TypeError
| AttributeError
| UnboundLocalError (name : string)
| OtherError (name : string).

Inductive outcome (A : Type) : Type :=
| Returns (a : A)
| Raises (e : exn).

Arguments Returns {A} a.
Arguments Raises {A} e.

(** What the plugin does to the outside world, in order. *)
Inductive event : Type :=
| FasGetUser (username : string)
| FasSearch (ircnick__exact : string)
| FasListGroupMembers (groupname : string)
| FasListGroupSponsors (groupname : string)
| HttpGet (url : string)
| Respond (text : string)
| Reply (text : string).

(** A computation: the events it issued and how it ended. *)
Definition M (A : Type) : Type := (list event * outcome A)%type.

Definition ret {A : Type} (a : A) : M A := ([], Returns a).

Definition raise {A : Type} (e : exn) : M A := ([], Raises e).

Definition bind {A B : Type} (m : M A) (k : A -> M B) : M B :=
  match m with
  | (t, Returns a) => let (t', r) := k a in ((t ++ t')%list, r)
  | (t, Raises e) => (t, Raises e)
  end.

(** [try: m  except ...: handler]: the handler picks the exceptions it
    catches by answering [Some]; the others keep travelling. *)
Definition try_except {A : Type} (m : M A) (handler : exn -> option (M A)) : M A :=
  match m with
  | (t, Returns a) => (t, Returns a)
  | (t, Raises e) =>
      match handler e with
      | Some h => let (t', r) := h in ((t ++ t')%list, r)
      | None => (t, Raises e)
      end
  end.

(** Lift a pure, fallible operation. *)
Definition lift {A : Type} (o : outcome A) : M A := ([], o).

(** One call to the outside world that answers with [o]. *)
Definition perform {A : Type} (ev : event) (o : outcome A) : M A := ([ev], o).

Declare Scope py_scope.
Delimit Scope py_scope with py.
Notation "x <- m ;; k" := (bind m (fun x => k))
  (at level 61, m at next level, right associativity) : py_scope.
Notation "m ;; k" := (bind m (fun _ => k))
  (at level 61, right associativity) : py_scope.
Open Scope py_scope.

Definition events {A : Type} (m : M A) : list event := fst m.

Definition result {A : Type} (m : M A) : outcome A := snd m.

(** A network call is any event but a message to the chat room. *)
Definition is_network_call (ev : event) : bool :=
  match ev with
  | Respond _ | Reply _ => false
  | _ => true
  end.

Definition network_calls {A : Type} (m : M A) : list event :=
  filter is_network_call (events m).

Definition is_search_call (ev : event) : bool :=
  match ev with
  | FasSearch _ => true
  | _ => false
  end.

Definition replies {A : Type} (m : M A) : list event :=
  filter (fun ev => negb (is_network_call ev)) (events m).

Module Py.

(** [d.get(k)] on the entries of a dict. *)
Fixpoint lookup (k : string) (d : list (string * value)) : option value :=
  match d with
  | [] => None
  | (k', v) :: d' => if String.eqb k k' then Some v else lookup k d'
  end.

(** [v[k]] for a string key. *)
Definition getitem (v : value) (k : string) : outcome value :=
  match v with
  | VDict d =>
      match lookup k d with
      | Some x => Returns x
      | None => Raises (KeyError k)
      end
  | _ => Raises TypeError
  end.

(** [v.get(k)]: only dicts have the method. *)
Definition get (v : value) (k : string) : outcome value :=
  match v with
  | VDict d =>
      match lookup k d with
      | Some x => Returns x
      | None => Returns VNone
      end
  | _ => Raises AttributeError
  end.

(** The truth value of [v]. *)
Definition truthy (v : value) : bool :=
  match v with
  | VNone => false
  | VBool b => b
  | VInt z => negb (Z.eqb z 0)
  | VStr s => negb (String.eqb s EmptyString)
  | VList l => match l with [] => false | _ => true end
  | VDict d => match d with [] => false | _ => true end
  end.

(** [a or b] *)
Definition or (a b : value) : value := if truthy a then a else b.

(** [v == s] for a string literal [s]. *)
Definition eq_str (v : value) (s : string) : bool :=
  match v with
  | VStr x => String.eqb x s
  | _ => false
  end.

(** The items [for x in v] runs through. *)
Definition iter (v : value) : outcome (list value) :=
  match v with
  | VList l => Returns l
  | VStr s => Returns (map VStr (chars s))
  | VDict d => Returns (map (fun kv => VStr (fst kv)) d)
  | _ => Raises TypeError
  end.

(** The items of [sep.join(...)] must all be strings. *)
Fixpoint all_str (items : list value) : outcome (list string) :=
  match items with
  | [] => Returns []
  | VStr s :: rest =>
      match all_str rest with
      | Returns l => Returns (s :: l)
      | Raises e => Raises e
      end
  | _ :: _ => Raises TypeError
  end.

(** [sep.join(items)] over values. *)
Definition join (sep : string) (items : list value) : outcome string :=
  match all_str items with
  | Returns l => Returns (PyStr.join sep l)
  | Raises e => Raises e
  end.

(** [[f(x) for x in xs]], stopping at the first exception. *)
Fixpoint map_outcome {A B : Type} (f : A -> outcome B) (xs : list A)
  : outcome (list B) :=
  match xs with
  | [] => Returns []
  | x :: rest =>
      match f x with
      | Raises e => Raises e
      | Returns y =>
          match map_outcome f rest with
          | Returns ys => Returns (y :: ys)
          | Raises e => Raises e
          end
      end
  end.

End Py.

(** ** The plugin *)

(** [NL = ...]: six spaces and a line feed, a Markdown line break. *)
Definition NL : string := "      " ++ lf.

(** The directory-service client, as the answers of its four
    operations: the [.result] of the response, or the exception the
    call raises. *)
Record Client : Type := {
  get_user : string -> outcome value;
  search : string -> outcome (list value);
  list_group_members : string -> outcome (list value);
  list_group_sponsors : string -> outcome (list value)
}.

(** An [httpx] response. *)
Record Response : Type := {
  status_code : Z;
  reason_phrase : string;
  json : outcome value
}.

(** The plugin object [self]: its configuration, the client handle set
    by [start] (absent when the client could not be set up), and the
    answer of the network to a GET. *)
Record Fedora : Type := {
  accounts_baseurl : string;
  pagure_url : string;
  fasjsonclient : option Client;
  httpx_get : string -> outcome Response
}.

(** The parts of a [MessageEvent] the plugin reads. *)
Record MessageEvent : Type := {
  sender : string;
  formatted_body : option string
}.

(** The classes an [except] clause can name.  The model keeps them
    flat: no exception of the model is a subclass of another. *)
Inductive exn_class : Type :=
| InfoGatherError_ | ClientSetupError_ | APIError_ | ValueError_ | IndexError_
| KeyError_ | TypeError_ | AttributeError_ | UnboundLocalError_ | OtherError_.

Definition class_of (e : exn) : exn_class :=
  match e with
  | InfoGatherError _ => InfoGatherError_
  | ClientSetupError _ => ClientSetupError_
  | APIError _ _ => APIError_
  | ValueError => ValueError_
  | IndexError => IndexError_
  | KeyError _ => KeyError_
  | TypeError => TypeError_
  | AttributeError => AttributeError_
  | UnboundLocalError _ => UnboundLocalError_
  | OtherError _ => OtherError_
  end.

Definition class_eqb (a b : exn_class) : bool :=
  match a, b with
  | InfoGatherError_, InfoGatherError_ | ClientSetupError_, ClientSetupError_
  | APIError_, APIError_ | ValueError_, ValueError_ | IndexError_, IndexError_
  | KeyError_, KeyError_ | TypeError_, TypeError_
  | AttributeError_, AttributeError_
  | UnboundLocalError_, UnboundLocalError_ | OtherError_, OtherError_ => true
  | _, _ => false
  end.

(** [a or b] on two classes: a class object is true, so the value is
    the first operand. *)
Definition class_or (a b : exn_class) : exn_class := a.

Definition respond (text : string) : M unit := perform (Respond text) (Returns tt).

Definition reply (text : string) : M unit := perform (Reply text) (Returns tt).

Definition startup_message : string :=
  "Sorry, I can not give you the required information. I failed to connect to FASJSON on startup".

Definition expired_message (e : string) : string :=
  "Sorry, I can not give you the required information. I failed to connect to FASJSON: **"
    ++ e ++ "**".

Definition one_at_a_time : string :=
  "Sorry, I can only look up one username at a time".

Section Plugin.

(** Python's [repr] of a container, which [str] falls back on; the
    plugin's logic never looks inside the text it gives. *)
Variable py_repr : value -> string.

(** [str(v)]: how an f-string field renders [v]. *)
Definition str (v : value) : string :=
  match v with
  | VStr s => s
  | VNone => "None"
  | VBool true => "True"
  | VBool false => "False"
  | VInt z => of_Z z
  | VList _ | VDict _ => py_repr v
  end.

Definition _userlink (self : Fedora) (username : value) : string :=
  "[" ++ str username ++ "](" ++ accounts_baseurl self ++ "user/"
      ++ str username ++ ")".

(** [self.fasjsonclient.<operation>]: the attribute of the handle. *)
Definition fasjson (self : Fedora) : M Client :=
  match fasjsonclient self with
  | Some c => ret c
  | None => raise AttributeError
  end.

Definition catch_generic_fasjson_errors {A : Type}
           (func : Fedora -> M A) (self : Fedora) : M A :=
  match fasjsonclient self with
  | None => raise (InfoGatherError startup_message)
  | Some _ =>
      try_except (func self)
        (fun e => match e with
                  | ClientSetupError text =>
                      Some (raise (InfoGatherError (expired_message text)))
                  | _ => None
                  end)
  end.

(** The local [person] is bound by the [try] body only; the handler
    of [APIError] raises for the code 404 and otherwise falls through
    to [return person]. *)
Definition _get_person_by_username (self : Fedora) (username : string) : M value :=
  person <- try_except
              (c <- fasjson self ;;
               p <- perform (FasGetUser username) (get_user c username) ;;
               ret (Some p))
              (fun e => match e with
                        | APIError code _ =>
                            Some (if Z.eqb code 404
                                  then raise (InfoGatherError
                                    ("Sorry, but Fedora Accounts user '" ++ username
                                       ++ "' does not exist"))
                                  else ret None)
                        | _ => None
                        end) ;;
  match person with
  | Some p => ret p
  | None => raise (UnboundLocalError "person")
  end.

(** The [try] body takes the first match of the chat-identity pattern,
    which raises IndexError when there is none; unpacking its two
    groups cannot fail.  The except clause names
    [ValueError or IndexError]. *)
Definition _get_users_by_matrix_id (self : Fedora) (username : string) : M value :=
  parsed <- try_except
              (match findall_mxid username with
               | g :: _ => ret g
               | [] => raise IndexError
               end)
              (fun e => if class_eqb (class_of e) (class_or ValueError_ IndexError_)
                        then Some (raise (InfoGatherError
                               ("Sorry, " ++ username
                                  ++ " does not look like a valid matrix user ID (e.g. @username:homeserver.com )")))
                        else None) ;;
  let (matrix_username, matrix_server) := (parsed : string * string) in
  if String.eqb matrix_server "fedora.im" then
    _get_person_by_username self matrix_username
  else
    let searchterm := "matrix://" ++ matrix_server ++ "/" ++ matrix_username in
    c <- fasjson self ;;
    searchresult <- perform (FasSearch searchterm) (search c searchterm) ;;
    if Nat.ltb 1 (List.length searchresult) then
      names <- lift (Py.join NL searchresult) ;;
      raise (InfoGatherError
               (of_nat (List.length searchresult) ++ " Fedora Accounts users have the "
                  ++ username ++ " Matrix Account defined:" ++ NL ++ names))
    else if Nat.eqb (List.length searchresult) 0 then
      raise (InfoGatherError
               ("No Fedora Accounts users have the " ++ username
                  ++ " Matrix Account defined"))
    else
      match searchresult with
      | x :: _ => ret x
      | [] => raise IndexError
      end.

(** The undecorated body of [_get_fasuser]. *)
Definition _get_fasuser_body (username : string) (evt : MessageEvent)
           (self : Fedora) : M value :=
  let username := if String.eqb username EmptyString then sender evt else username in
  let plain_text : M value :=
    let usernames := split_space username in
    if Nat.ltb 1 (List.length usernames) then raise (InfoGatherError one_at_a_time)
    else
      match usernames with
      | u0 :: _ =>
          if search_mxid u0 then _get_users_by_matrix_id self u0
          else _get_person_by_username self u0
      | [] => raise IndexError
      end in
  match formatted_body evt with
  | Some body =>
      if negb (String.eqb body EmptyString) then
        let u := findall_mention body in
        if Nat.ltb 1 (List.length u) then raise (InfoGatherError one_at_a_time)
        else if Nat.eqb (List.length u) 1 then
          match u with
          | m :: _ => _get_users_by_matrix_id self m
          | [] => raise IndexError
          end
        else plain_text
      else plain_text
  | None => plain_text
  end.

Definition _get_fasuser (self : Fedora) (username : string) (evt : MessageEvent)
  : M value :=
  catch_generic_fasjson_errors (_get_fasuser_body username evt) self.

Definition _get_group_members_body (groupname : string) (self : Fedora)
  : M (list value) :=
  members <- try_except
               (c <- fasjson self ;;
                ms <- perform (FasListGroupMembers groupname)
                              (list_group_members c groupname) ;;
                ret (Some ms))
               (fun e => match e with
                         | APIError code _ =>
                             Some (if Z.eqb code 404
                                   then raise (InfoGatherError
                                     ("Sorry, but group '" ++ groupname
                                        ++ "' does not exist"))
                                   else ret None)
                         | _ => None
                         end) ;;
  match members with
  | Some ms => ret ms
  | None => raise (UnboundLocalError "members")
  end.

Definition _get_group_members (self : Fedora) (groupname : string)
  : M (list value) :=
  catch_generic_fasjson_errors (_get_group_members_body groupname) self.

Definition _get_group_sponsors_body (groupname : string) (self : Fedora)
  : M (list value) :=
  sponsors <- try_except
                (c <- fasjson self ;;
                 ss <- perform (FasListGroupSponsors groupname)
                               (list_group_sponsors c groupname) ;;
                 ret (Some ss))
                (fun e => match e with
                          | APIError code _ =>
                              Some (if Z.eqb code 404
                                    then raise (InfoGatherError
                                      ("Sorry, but group '" ++ groupname
                                         ++ "' does not exist"))
                                    else ret None)
                          | _ => None
                          end) ;;
  match sponsors with
  | Some ss => ret ss
  | None => raise (UnboundLocalError "sponsors")
  end.

Definition _get_group_sponsors (self : Fedora) (groupname : string)
  : M (list value) :=
  catch_generic_fasjson_errors (_get_group_sponsors_body groupname) self.

Definition _get_pagure_issue (self : Fedora) (project issue_id namespace : string)
  : M value :=
  let endpoint :=
    pagure_url self ++ PyStr.join "/" [namespace; project; "issue"; issue_id] in
  response <- perform (HttpGet endpoint) (httpx_get self endpoint) ;;
  json <- lift (json response) ;;
  if Z.eqb (status_code response) 404 then
    error_code <- lift (Py.get json "error_code") ;;
    error <- lift (Py.get json "error") ;;
    if Py.eq_str error_code "ENOPROJECT" then
      raise (InfoGatherError ("Project " ++ project ++ " not found"))
    else if Py.eq_str error_code "ENOISSUE" then
      raise (InfoGatherError
               ("Issue #" ++ issue_id ++ " not found on " ++ project ++ " project"))
    else
      raise (InfoGatherError
               ("Issue querying Pagure: " ++ str error_code ++ ": " ++ str error))
  else if negb (Z.eqb (status_code response) 200) then
    raise (InfoGatherError
             ("Issue querying Pagure: " ++ of_Z (status_code response) ++ ": "
                ++ reason_phrase response))
  else ret json.

(** ** The command handlers *)

(** [try: x = m  except InfoGatherError as e: respond(e.message); return]:
    [None] when the handler has replied and returned. *)
Definition or_respond {A : Type} (m : M A) : M (option A) :=
  try_except (x <- m ;; ret (Some x))
    (fun e => match e with
              | InfoGatherError message => Some (respond message ;; ret None)
              | _ => None
              end).

(** [', '.join(self._userlink(m['username']) for m in group)] *)
Definition userlinks (self : Fedora) (group : list value) : outcome string :=
  match Py.map_outcome
          (fun m => match Py.getitem m "username" with
                    | Returns u => Returns (_userlink self u)
                    | Raises e => Raises e
                    end) group with
  | Returns links => Returns (PyStr.join ", " links)
  | Raises e => Raises e
  end.

Definition members (self : Fedora) (evt : MessageEvent) (groupname : string)
  : M unit :=
  if String.eqb groupname EmptyString then
    respond "groupname argument is required. e.g. `!members designteam`"
  else
    fetched <- or_respond (_get_group_members self groupname) ;;
    match fetched with
    | None => ret tt
    | Some members =>
        if Nat.ltb 200 (List.length members) then
          respond (groupname ++ " has " ++ of_nat (List.length members)
                     ++ " and thats too much to dump here")
        else
          links <- lift (userlinks self members) ;;
          respond ("Members of " ++ groupname ++ ": " ++ links)
    end.

Definition sponsors (self : Fedora) (evt : MessageEvent) (groupname : string)
  : M unit :=
  if String.eqb groupname EmptyString then
    respond "groupname argument is required. e.g. `!sponsors designteam`"
  else
    fetched <- or_respond (_get_group_sponsors self groupname) ;;
    match fetched with
    | None => ret tt
    | Some sponsors =>
        links <- lift (userlinks self sponsors) ;;
        respond ("Sponsors of " ++ groupname ++ ": " ++ links)
    end.

(** [sep.join(v)] for any iterable [v]. *)
Definition join_iter (sep : string) (v : value) : outcome string :=
  match Py.iter v with
  | Returns items => Py.join sep items
  | Raises e => Raises e
  end.

Definition hello (self : Fedora) (evt : MessageEvent) (username : string)
  : M unit :=
  fetched <- or_respond (_get_fasuser self username evt) ;;
  match fetched with
  | None => ret tt
  | Some user =>
      human_name <- lift (Py.getitem user "human_name") ;;
      name <- lift (Py.getitem user "username") ;;
      let message := str human_name ++ " (" ++ str name ++ ")" in
      pronouns <- lift (Py.get user "pronouns") ;;
      message <- (if Py.truthy pronouns then
                    joined <- lift (join_iter " or " pronouns) ;;
                    ret (message ++ " - " ++ joined)
                  else ret message) ;;
      respond message
  end.

Definition user (self : Fedora) (evt : MessageEvent) (username : string)
  : M unit :=
  fetched <- or_respond (_get_fasuser self username evt) ;;
  match fetched with
  | None => ret tt
  | Some user =>
      name <- lift (Py.get user "username") ;;
      human_name <- lift (Py.get user "human_name") ;;
      pronouns <- lift (Py.get user "pronouns") ;;
      pronouns <- lift (join_iter " or " (Py.or pronouns (VList []))) ;;
      creation <- lift (Py.get user "creation") ;;
      timezone <- lift (Py.get user "timezone") ;;
      locale <- lift (Py.get user "locale") ;;
      gpgkeyids <- lift (Py.getitem user "gpgkeyids") ;;
      keys <- lift (join_iter " and " (Py.or gpgkeyids (VList [VStr "None"]))) ;;
      respond ("User: " ++ str name ++ "," ++ NL
                 ++ "Name: " ++ str human_name ++ "," ++ NL
                 ++ "Pronouns: " ++ pronouns ++ "," ++ NL
                 ++ "Creation: " ++ str creation ++ "," ++ NL
                 ++ "Timezone: " ++ str timezone ++ "," ++ NL
                 ++ "Locale: " ++ str locale ++ "," ++ NL
                 ++ "GPG Key IDs: " ++ keys ++ "," ++ NL)
  end.

Definition pagureissue (self : Fedora) (evt : MessageEvent)
           (project issue_id : string) : M unit :=
  fetched <- or_respond (_get_pagure_issue self project issue_id EmptyString) ;;
  match fetched with
  | None => ret tt
  | Some issue =>
      title <- lift (Py.get issue "title") ;;
      full_url <- lift (Py.get issue "full_url") ;;
      respond ("[" ++ project ++ " #" ++ issue_id ++ "](" ++ str full_url ++ "): "
                 ++ str title)
  end.

End Plugin.

(** ** Notions used in the statements *)

(** Every character of [s] satisfies [p]. *)
Fixpoint all_chars (p : ascii -> bool) (s : string) : bool :=
  match s with
  | EmptyString => true
  | String c r => p c && all_chars p r
  end.

Definition not_space (c : ascii) : bool := negb (Ascii.eqb c " "%char).

(** The address [_get_pagure_issue] requests. *)
Definition endpoint (self : Fedora) (project issue_id namespace : string) : string :=
  pagure_url self ++ PyStr.join "/" [namespace; project; "issue"; issue_id].

(** The value [d.get(k)] gives for the entries [d]. *)
Definition field (k : string) (d : list (string * value)) : value :=
  match Py.lookup k d with
  | Some x => x
  | None => VNone
  end.

(** The [username] entry of a record of the directory. *)
Definition username_of (m : value) : value :=
  match Py.getitem m "username" with
  | Returns u => u
  | Raises _ => VNone
  end.

Definition has_username (m : value) : bool :=
  match Py.getitem m "username" with
  | Returns _ => true
  | Raises _ => false
  end.

(** The link targets of a rich-text body that have the shape of a chat
    identity: the matrix user IDs the comment of the source speaks of,
    where the pattern captures every target under matrix.to. *)
Definition identity_mentions (body : string) : list string :=
  filter search_mxid (findall_mention body).

(** ** Sample data for the concrete checks *)

Module Fixtures.

Definition repr0 (v : value) : string := "<container>".

Definition account (username human_name : string) : value :=
  VDict [("username", VStr username); ("human_name", VStr human_name);
         ("pronouns", VNone); ("creation", VStr "2020-01-01T00:00:00Z");
         ("timezone", VStr "UTC"); ("locale", VStr "en-US");
         ("gpgkeyids", VNone)].

Definition alice : value := account "alice" "Alice".

Definition alice2 : value := account "alice2" "Alice Too".

(** A directory that knows [alice], finds nobody for any search key
    and has one group, [designteam]. *)
Definition directory : Client := {|
  get_user := fun u =>
    if String.eqb u "alice" then Returns alice else Raises (APIError 404 "Not Found");
  search := fun _ => Returns [];
  list_group_members := fun g =>
    if String.eqb g "designteam" then Returns [alice; alice2]
    else Raises (APIError 404 "Not Found");
  list_group_sponsors := fun g =>
    if String.eqb g "designteam" then Returns [alice]
    else Raises (APIError 404 "Not Found")
|}.

(** A directory in which two accounts carry the same Matrix address. *)
Definition directory_two_matches : Client := {|
  get_user := get_user directory;
  search := fun _ => Returns [alice; alice2];
  list_group_members := list_group_members directory;
  list_group_sponsors := list_group_sponsors directory
|}.

(** A directory that answers every user query with a server error. *)
Definition directory_down : Client := {|
  get_user := fun _ => Raises (APIError 500 "Internal Server Error");
  search := search directory;
  list_group_members := list_group_members directory;
  list_group_sponsors := list_group_sponsors directory
|}.

(** A directory whose group [big] has [n] members and sponsors. *)
Definition directory_big (n : nat) : Client := {|
  get_user := get_user directory;
  search := search directory;
  list_group_members := fun _ => Returns (repeat alice n);
  list_group_sponsors := fun _ => Returns (repeat alice n)
|}.

Definition no_tracker (url : string) : outcome Response :=
  Raises (OtherError "ConnectError").

Definition plugin (c : option Client) : Fedora := {|
  accounts_baseurl := "https://accounts.fedoraproject.org/";
  pagure_url := "https://pagure.io/api/0/";
  fasjsonclient := c;
  httpx_get := no_tracker
|}.

(** A tracker that gives [resp] for every request. *)
Definition tracker (resp : Response) : Fedora := {|
  accounts_baseurl := "https://accounts.fedoraproject.org/";
  pagure_url := "https://pagure.io/api/0/";
  fasjsonclient := None;
  httpx_get := fun _ => Returns resp
|}.

Definition plain (sender : string) : MessageEvent :=
  {| sender := sender; formatted_body := None |}.

Definition rich (sender body : string) : MessageEvent :=
  {| sender := sender; formatted_body := Some body |}.

(** An anchor whose target is [target], as a chat client writes it. *)
Definition anchor (target text : string) : string :=
  "<a href=" ++ String DQ ("https://matrix.to/#/" ++ target)
    ++ String DQ (">" ++ text ++ "</a>").

(** The tracker's answer for a project it does not know. *)
Definition no_project : Response := {|
  status_code := 404;
  reason_phrase := "NOT FOUND";
  json := Returns (VDict [("error", VStr "Project not found");
                          ("error_code", VStr "ENOPROJECT")])
|}.

(** A gateway error, whose body is a page of HTML. *)
Definition bad_gateway : Response := {|
  status_code := 502;
  reason_phrase := "Bad Gateway";
  json := Raises (OtherError "JSONDecodeError")
|}.

(** A body that mentions one user and links one room. *)
Definition user_and_room : string :=
  anchor "@alice:fedora.im" "alice" ++ " in " ++ anchor "#devel:fedora.im" "#devel".

End Fixtures.

(** ** The remaining commands *)

Section Commands.

Variable py_repr : value -> string.

(** The three shortcuts of the issue command: the body of [pagureissue]
    with the project written out. *)
Definition fpc (self : Fedora) (evt : MessageEvent) (issue_id : string) : M unit :=
  fetched <- or_respond
               (_get_pagure_issue py_repr self "packaging-committee" issue_id
                  EmptyString) ;;
  match fetched with
  | None => ret tt
  | Some issue =>
      title <- lift (Py.get issue "title") ;;
      full_url <- lift (Py.get issue "full_url") ;;
      respond ("[packaging-committee #" ++ issue_id ++ "](" ++ str py_repr full_url
                 ++ "): " ++ str py_repr title)
  end.

Definition epel (self : Fedora) (evt : MessageEvent) (issue_id : string) : M unit :=
  fetched <- or_respond (_get_pagure_issue py_repr self "epel" issue_id EmptyString) ;;
  match fetched with
  | None => ret tt
  | Some issue =>
      title <- lift (Py.get issue "title") ;;
      full_url <- lift (Py.get issue "full_url") ;;
      respond ("[epel #" ++ issue_id ++ "](" ++ str py_repr full_url
                 ++ "): " ++ str py_repr title)
  end.

Definition fesco (self : Fedora) (evt : MessageEvent) (issue_id : string) : M unit :=
  fetched <- or_respond (_get_pagure_issue py_repr self "fesco" issue_id EmptyString) ;;
  match fetched with
  | None => ret tt
  | Some issue =>
      title <- lift (Py.get issue "title") ;;
      full_url <- lift (Py.get issue "full_url") ;;
      respond ("[fesco #" ++ issue_id ++ "](" ++ str py_repr full_url
                 ++ "): " ++ str py_repr title)
  end.

(** The answer of [pytz] and the clock: the local time of a time zone,
    already rendered as hours and minutes, or the exception raised for
    a name that is no time zone. *)
Variable local_time : value -> outcome string.

Definition quoted (s : string) : string := String DQ (s ++ String DQ EmptyString).

Definition localtime (self : Fedora) (evt : MessageEvent) (username : string)
  : M unit :=
  fetched <- or_respond (_get_fasuser self username evt) ;;
  match fetched with
  | None => ret tt
  | Some user =>
      timezone_name <- lift (Py.getitem user "timezone") ;;
      match timezone_name with
      | VNone =>
          name <- lift (Py.get user "username") ;;
          reply ("User " ++ quoted (str py_repr name) ++ " doesn't share their timezone")
      | _ =>
          time <- try_except
                    (t <- lift (local_time timezone_name) ;; ret (Some t))
                    (fun _ =>
                       Some (name <- lift (Py.get user "username") ;;
                             reply ("The timezone of " ++ quoted (str py_repr name)
                                      ++ " was unknown: "
                                      ++ quoted (str py_repr timezone_name)) ;;
                             ret None)) ;;
          match time with
          | None => ret tt
          | Some hhmm =>
              name <- lift (Py.get user "username") ;;
              respond ("The current local time of " ++ quoted (str py_repr name)
                         ++ " is: " ++ quoted hhmm ++ " (timezone: "
                         ++ str py_repr timezone_name ++ ")")
          end
      end
  end.

End Commands.

(** [if x:] on a string, then the prefixed line. *)
Definition labelled (label names : string) : string :=
  if String.eqb names EmptyString then names else label ++ names ++ NL.

Definition nonempty (s : string) : bool := negb (String.eqb s EmptyString).

(** [req_json[...][role]], joined with commas. *)
Definition access_users (req_json : value) (role : string) : outcome string :=
  match Py.getitem req_json "access_users" with
  | Raises e => Raises e
  | Returns users =>
      match Py.getitem users role with
      | Raises e => Raises e
      | Returns names => join_iter ", " names
      end
  end.

(** [requests_get] is the answer of the package registry to a GET. *)
Definition whoowns (requests_get : string -> outcome Response) (evt : MessageEvent)
           (package : string) : M unit :=
  let url := "https://src.fedoraproject.org/api/0/rpms/" in
  req <- perform (HttpGet (url ++ package)) (requests_get (url ++ package)) ;;
  if Z.eqb (status_code req) 404 then
    reply ("Package " ++ package ++ " not found.")
  else
    req_json <- lift (json req) ;;
    admins <- lift (access_users req_json "admin") ;;
    owners <- lift (access_users req_json "owner") ;;
    committers <- lift (access_users req_json "commit") ;;
    let owners := labelled "__owner:__ " owners in
    let admins := labelled "__admin:__ " admins in
    let committers := labelled "__commit:__ " committers in
    respond (PyStr.join EmptyString (filter nonempty [owners; admins; committers])).

(** [start]: the tracker address is read from the configuration and the
    directory client is built; [new_client] is the outcome of the
    constructor.  A [ClientSetupError] leaves the handle absent (the
    source also writes a line to the log, which the model leaves out);
    any other exception of the constructor ends [start]. *)
Definition start (self : Fedora) (config_pagure_url : string)
           (new_client : outcome Client) : outcome Fedora :=
  let started (handle : option Client) : Fedora :=
    {| accounts_baseurl := accounts_baseurl self;
       pagure_url := config_pagure_url;
       fasjsonclient := handle;
       httpx_get := httpx_get self |} in
  match new_client with
  | Returns c => Returns (started (Some c))
  | Raises (ClientSetupError _) => Returns (started None)
  | Raises e => Raises e
  end.

(** ** More notions used in the statements *)

(** The link targets of the rich-text body of an event, none when the
    event has no such body. *)
Definition link_targets (evt : MessageEvent) : list string :=
  match formatted_body evt with
  | Some body => findall_mention body
  | None => []
  end.

(** A string without a colon. *)
Definition no_colon (c : ascii) : bool := negb (Ascii.eqb c ":"%char).

(** The answers of the directory under which a group command replies:
    a list of records that carry a username, the code 404, or a failed
    session. *)
Definition group_answer_ok (answer : outcome (list value)) : bool :=
  match answer with
  | Returns group => forallb has_username group
  | Raises (APIError code _) => Z.eqb code 404
  | Raises (ClientSetupError _) => true
  | Raises _ => false
  end.

(** A tail of a handler that either sends one message to the room and
    returns, or raises having sent nothing. *)
Definition one_message_or_raise (m : M unit) : Prop :=
  (exists msg, is_network_call msg = false /\ m = ([msg], Returns tt))
  \/ (exists e, m = ([], Raises e)).

(** A whole command: it returns after exactly one message to the room,
    or it raises and no message was sent. *)
Definition replied_once_or_raised (m : M unit) : Prop :=
  (result m = Returns tt /\ List.length (replies m) = 1)
  \/ (exists e, result m = Raises e /\ replies m = []).

Module MoreFixtures.

(** An account with pronouns. *)
Definition carol : value :=
  VDict [("username", VStr "carol"); ("human_name", VStr "Carol");
         ("pronouns", VList [VStr "she/her"; VStr "they/them"]);
         ("creation", VStr "2021-05-05T00:00:00Z");
         ("timezone", VStr "Europe/Paris"); ("locale", VStr "fr-FR");
         ("gpgkeyids", VList [VStr "ABCD"; VStr "EF01"])].

Definition directory_carol : Client := {|
  get_user := fun u =>
    if String.eqb u "carol" then Returns carol else Raises (APIError 404 "Not Found");
  search := fun _ => Returns [VStr "carol"; VStr "carol2"];
  list_group_members := fun _ => Raises (APIError 404 "Not Found");
  list_group_sponsors := fun _ => Raises (APIError 503 "Service Unavailable")
|}.

(** A directory whose session has expired. *)
Definition directory_expired : Client := {|
  get_user := fun _ => Raises (ClientSetupError "ticket expired");
  search := fun _ => Raises (ClientSetupError "ticket expired");
  list_group_members := fun _ => Raises (ClientSetupError "ticket expired");
  list_group_sponsors := fun _ => Raises (ClientSetupError "ticket expired")
|}.

Definition paris_time (tz : value) : outcome string :=
  if Py.eq_str tz "Europe/Paris" then Returns "14:05"
  else Raises (OtherError "UnknownTimeZoneError").

Definition package_answer : Response := {|
  status_code := 200;
  reason_phrase := "OK";
  json := Returns (VDict [("access_users",
             VDict [("admin", VList []);
                    ("owner", VList [VStr "alice"]);
                    ("commit", VList [VStr "bob"; VStr "carol"])])])
|}.

Definition issue_answer : Response := {|
  status_code := 200;
  reason_phrase := "OK";
  json := Returns (VDict [("title", VStr "Update the guidelines");
                          ("full_url", VStr "https://pagure.io/epel/issue/123")])
|}.

End MoreFixtures.

(** * Properties *)

(** ** Checks of the matchers on small inputs *)

Example split_space_two : split_space "a  b" = ["a"; EmptyString; "b"].
Proof. reflexivity. Qed.

Example findall_mxid_plain : findall_mxid "@dudemcpants:fedora.im" = [("dudemcpants", "fedora.im")].
Proof. reflexivity. Qed.

Example findall_mxid_greedy : findall_mxid "x @a:b:c.org" = [("a:b", "c.org")].
Proof. reflexivity. Qed.

Example findall_mxid_room : findall_mxid "#fedora:fedora.im" = [].
Proof. reflexivity. Qed.

Example findall_mention_two :
  findall_mention
    ("<a href=" ++ String DQ "https://matrix.to/#/@zodbot:fedora.im"
       ++ String DQ ">zodbot</a> <a href='http://matrix.to/#/@a:b.c'>a</a>")
  = ["@zodbot:fedora.im"; "@a:b.c"].
Proof. reflexivity. Qed.


Example chars_ascii : chars "and" = ["a"; "n"; "d"].
Proof. reflexivity. Qed.

(** The two bytes of an accented letter stay together. *)
Example chars_two_bytes :
  chars (String "a"%char (String "195"%char (String "169"%char "b")))
  = ["a"; String "195"%char (String "169"%char EmptyString); "b"].
Proof. reflexivity. Qed.

(** ** The monad *)

Lemma bind_ret_l {A B : Type} (a : A) (k : A -> M B) : bind (ret a) k = k a.
Proof. unfold bind, ret. destruct (k a) as [t r]. reflexivity. Qed.

Lemma bind_raise {A B : Type} (e : exn) (k : A -> M B) : bind (raise e) k = raise e.
Proof. reflexivity. Qed.

Lemma bind_perform_returns {A B : Type} (ev : event) (a : A) (k : A -> M B) :
  bind (perform ev (Returns a)) k = (ev :: events (k a), result (k a)).
Proof. unfold bind, perform, events, result. destruct (k a). reflexivity. Qed.

Lemma bind_perform_raises {A B : Type} (ev : event) (e : exn) (k : A -> M B) :
  bind (perform ev (Raises e)) k = ([ev], Raises e).
Proof. reflexivity. Qed.

Lemma bind_ret_r {A : Type} (m : M A) : bind m ret = m.
Proof.
  destruct m as [t [a | e]]; [| reflexivity].
  unfold bind, ret. rewrite app_nil_r. reflexivity.
Qed.

Lemma bind_assoc {A B C : Type} (m : M A) (f : A -> M B) (g : B -> M C) :
  bind (bind m f) g = bind m (fun x => bind (f x) g).
Proof.
  destruct m as [t [a | e]]; [| reflexivity].
  unfold bind. destruct (f a) as [t1 [b | e1]]; [| reflexivity].
  destruct (g b) as [t2 r]. rewrite app_assoc. reflexivity.
Qed.

(** An exception the handler lets through leaves the computation as it
    is. *)
Lemma try_except_uncaught {A : Type} (t : list event) (e : exn)
      (handler : exn -> option (M A)) :
  handler e = None -> try_except (t, Raises e) handler = (t, Raises e).
Proof. intros H. unfold try_except. rewrite H. reflexivity. Qed.

(** ** The client guard *)

Lemma guard_absent {A : Type} (func : Fedora -> M A) (self : Fedora) :
  fasjsonclient self = None ->
  catch_generic_fasjson_errors func self = ([], Raises (InfoGatherError startup_message)).
Proof. intros H. unfold catch_generic_fasjson_errors. rewrite H. reflexivity. Qed.

(** With a client, the wrapper changes nothing unless the body raises
    [ClientSetupError]. *)
Lemma guard_transparent {A : Type} (func : Fedora -> M A) (self : Fedora) (c : Client) :
  fasjsonclient self = Some c ->
  (forall text, result (func self) <> Raises (ClientSetupError text)) ->
  catch_generic_fasjson_errors func self = func self.
Proof.
  intros Hc Hno. unfold catch_generic_fasjson_errors. rewrite Hc.
  destruct (func self) as [t [a | e]] eqn:E; simpl in *; [reflexivity |].
  destruct e; try reflexivity.
  exfalso. apply (Hno text). reflexivity.
Qed.

Lemma startup_not_expired (e : string) : startup_message <> expired_message e.
Proof. unfold startup_message, expired_message. simpl. discriminate. Qed.

Lemma try_except_ret {A : Type} (a : A) (handler : exn -> option (M A)) :
  try_except (ret a) handler = ret a.
Proof. reflexivity. Qed.

Lemma lift_returns {A : Type} (a : A) : lift (Returns a) = ret a.
Proof. reflexivity. Qed.

(** C2: with the client handle absent, the resolver and both group
    queries fail at once with the startup message, whatever their
    arguments, and issue no event at all, so no network call; the
    startup message differs from every message of the expired-session
    case. *)
Theorem absent_client_fails_first (self : Fedora) (username groupname : string)
        (evt : MessageEvent) :
  fasjsonclient self = None ->
  _get_fasuser self username evt = ([], Raises (InfoGatherError startup_message))
  /\ _get_group_members self groupname = ([], Raises (InfoGatherError startup_message))
  /\ _get_group_sponsors self groupname = ([], Raises (InfoGatherError startup_message))
  /\ (forall e, startup_message <> expired_message e).
Proof.
  intros H. repeat split; try (apply guard_absent; exact H).
  apply startup_not_expired.
Qed.

Lemma absent_client_fails_first_witness :
  _get_fasuser (Fixtures.plugin None) "alice" (Fixtures.plain "@bob:fedora.im")
  = ([], Raises (InfoGatherError startup_message))
  /\ network_calls (_get_group_members (Fixtures.plugin None) "designteam") = [].
Proof.
  destruct (absent_client_fails_first (Fixtures.plugin None) "alice" "designteam"
              (Fixtures.plain "@bob:fedora.im") eq_refl) as [Hu [Hm _]].
  split; [exact Hu | rewrite Hm; reflexivity].
Defined.

(** ** The chat-identity lookup *)

Lemma all_chars_app (p : ascii -> bool) (a b : string) :
  all_chars p (a ++ b) = all_chars p a && all_chars p b.
Proof.
  induction a as [| c a IH]; [reflexivity |].
  simpl. rewrite IH, andb_assoc. reflexivity.
Qed.

Lemma take_while_all (p : ascii -> bool) (s : string) :
  all_chars p s = true -> take_while p s = s.
Proof.
  induction s as [| c s IH]; [reflexivity |].
  simpl. intros H. apply andb_true_iff in H as [Hc Hs].
  rewrite Hc, (IH Hs). reflexivity.
Qed.

(** When no colon is left in [d], the last colon of [l:d] is the one
    written between them, whatever colons [l] holds. *)
Lemma rsplit_colon_last (l d : string) :
  rsplit_colon d = None -> rsplit_colon (l ++ String ":"%char d) = Some (l, d).
Proof.
  intros Hd. induction l as [| c l IH].
  - simpl. rewrite Hd. reflexivity.
  - simpl. simpl in IH. rewrite IH. reflexivity.
Qed.

Lemma findall_mxid_wellformed (l d : string) :
  all_chars dot l = true -> all_chars dot d = true -> rsplit_colon d = None ->
  exists rest, findall_mxid ("@" ++ l ++ ":" ++ d) = (l, d) :: rest.
Proof.
  intros Hl Hd Hc. unfold findall_mxid, findall.
  change ("@" ++ l ++ ":" ++ d) with (String "@"%char (l ++ String ":"%char d)).
  cbn [findall_from match_mxid_at Ascii.eqb Bool.eqb].
  rewrite take_while_all.
  - rewrite (rsplit_colon_last l d Hc). eexists. reflexivity.
  - rewrite all_chars_app, Hl. simpl. exact Hd.
Qed.

Lemma split_space_whole (s : string) :
  all_chars not_space s = true -> split_space s = [s].
Proof.
  induction s as [| c s IH]; [reflexivity |].
  simpl. intros H. apply andb_true_iff in H as [Hc Hs].
  unfold not_space in Hc. apply negb_true_iff in Hc. rewrite Hc, (IH Hs). reflexivity.
Qed.

Lemma home_server_is_direct_lookup (self : Fedora) (username l : string)
      (rest : list (string * string)) :
  findall_mxid username = (l, "fedora.im") :: rest ->
  _get_users_by_matrix_id self username = _get_person_by_username self l.
Proof.
  intros Hp. unfold _get_users_by_matrix_id. rewrite Hp.
  rewrite try_except_ret, bind_ret_l. reflexivity.
Qed.

Lemma person_lookup_events (self : Fedora) (username : string) :
  events (_get_person_by_username self username) = []
  \/ events (_get_person_by_username self username) = [FasGetUser username].
Proof.
  unfold _get_person_by_username, fasjson.
  destruct (fasjsonclient self) as [c |]; [| left; reflexivity].
  right. rewrite bind_ret_l.
  destruct (get_user c username) as [p | e]; [reflexivity |].
  destruct e; try reflexivity.
  cbn. destruct (Z.eqb code 404); reflexivity.
Qed.

(** C4: for a local part [l] free of line feeds, the chat-identity
    lookup of [@l:fedora.im] is the direct lookup of the username [l]:
    same events, same outcome, and no search call among the events.
    In the resolver, a plain-text argument of that form with no space
    comes to the same direct lookup. *)
Theorem home_server_fast_path (self : Fedora) (l : string) :
  all_chars dot l = true ->
  let identity := "@" ++ l ++ ":fedora.im" in
  _get_users_by_matrix_id self identity = _get_person_by_username self l
  /\ filter is_search_call (events (_get_users_by_matrix_id self identity)) = []
  /\ (forall evt, formatted_body evt = None -> all_chars not_space l = true ->
      _get_fasuser_body identity evt self = _get_person_by_username self l).
Proof.
  intros Hl identity.
  destruct (findall_mxid_wellformed l "fedora.im" Hl eq_refl eq_refl) as [rest Hp].
  change (findall_mxid identity = (l, "fedora.im") :: rest) in Hp.
  assert (E := home_server_is_direct_lookup self identity l rest Hp).
  split; [exact E | split].
  - rewrite E. destruct (person_lookup_events self l) as [-> | ->]; reflexivity.
  - intros evt Hb Hs. unfold _get_fasuser_body. rewrite Hb.
    assert (Hsplit : split_space identity = [identity]).
    { apply split_space_whole. unfold identity.
      change ("@" ++ l ++ ":fedora.im") with (String "@"%char (l ++ ":fedora.im")).
      cbn [all_chars]. rewrite all_chars_app, Hs. reflexivity. }
    change (String.eqb identity EmptyString) with false. cbv iota.
    rewrite Hsplit. cbn [List.length Nat.ltb Nat.leb].
    unfold search_mxid. rewrite Hp. exact E.
Qed.

Lemma home_server_fast_path_witness :
  _get_users_by_matrix_id (Fixtures.plugin (Some Fixtures.directory)) "@alice:fedora.im"
  = _get_person_by_username (Fixtures.plugin (Some Fixtures.directory)) "alice".
Proof.
  exact (proj1 (home_server_fast_path (Fixtures.plugin (Some Fixtures.directory))
                  "alice" eq_refl)).
Defined.

Lemma all_str_not_str (items : list value) (v : value) :
  In v items -> (forall s, v <> VStr s) -> Py.all_str items = Raises TypeError.
Proof.
  induction items as [| x rest IH]; intros Hin Hv; [destruct Hin |].
  destruct Hin as [-> | Hin].
  - destruct v; try reflexivity. exfalso. apply (Hv s). reflexivity.
  - simpl. destruct x; try reflexivity. rewrite (IH Hin Hv). reflexivity.
Qed.

(** Away from the home server the lookup is one search call followed by
    the three-way test on the number of matches. *)
Lemma matrix_id_search (self : Fedora) (c : Client) (username l d : string)
      (rest : list (string * string)) :
  fasjsonclient self = Some c ->
  findall_mxid username = (l, d) :: rest ->
  d <> "fedora.im" ->
  _get_users_by_matrix_id self username
  = bind (perform (FasSearch ("matrix://" ++ d ++ "/" ++ l))
                  (search c ("matrix://" ++ d ++ "/" ++ l)))
      (fun searchresult =>
         if Nat.ltb 1 (List.length searchresult) then
           names <- lift (Py.join NL searchresult) ;;
           raise (InfoGatherError
                    (of_nat (List.length searchresult)
                       ++ " Fedora Accounts users have the "
                       ++ username ++ " Matrix Account defined:" ++ NL ++ names))
         else if Nat.eqb (List.length searchresult) 0 then
           raise (InfoGatherError
                    ("No Fedora Accounts users have the " ++ username
                       ++ " Matrix Account defined"))
         else match searchresult with
              | x :: _ => ret x
              | [] => raise IndexError
              end).
Proof.
  intros Hc Hp Hd. unfold _get_users_by_matrix_id. rewrite Hp.
  rewrite try_except_ret, bind_ret_l.
  destruct (String.eqb_spec d "fedora.im") as [E | _]; [contradiction |].
  unfold fasjson. rewrite Hc. rewrite bind_ret_l. reflexivity.
Qed.

(** C1: for an identity that parses to a domain other than the home
    server, the lookup issues the one search keyed on
    matrix://domain/localpart.  No match gives the not-found message
    and one match gives the matched record.  With two matches or more,
    of which one is not a string (the directory sends records), the
    join over the matches raises TypeError: no message that lists the
    candidates is produced. *)
Theorem search_result_outcomes (self : Fedora) (c : Client) (username l d : string)
        (rest : list (string * string)) (found : list value) :
  fasjsonclient self = Some c ->
  findall_mxid username = (l, d) :: rest ->
  d <> "fedora.im" ->
  search c ("matrix://" ++ d ++ "/" ++ l) = Returns found ->
  let call := FasSearch ("matrix://" ++ d ++ "/" ++ l) in
  (found = [] ->
   _get_users_by_matrix_id self username
   = ([call], Raises (InfoGatherError
                        ("No Fedora Accounts users have the " ++ username
                           ++ " Matrix Account defined"))))
  /\ (forall record, found = [record] ->
      _get_users_by_matrix_id self username = ([call], Returns record))
  /\ (2 <= List.length found ->
      (exists record, In record found /\ forall s, record <> VStr s) ->
      _get_users_by_matrix_id self username = ([call], Raises TypeError)).
Proof.
  intros Hc Hp Hd Hs call.
  rewrite (matrix_id_search self c username l d rest Hc Hp Hd), Hs.
  rewrite bind_perform_returns. repeat split.
  - intros ->. reflexivity.
  - intros record ->. reflexivity.
  - intros Hlen [record [Hin Hrec]].
    destruct (Nat.ltb_spec 1 (List.length found)); [| lia].
    unfold lift, Py.join. rewrite (all_str_not_str found record Hin Hrec). reflexivity.
Qed.

Lemma search_result_outcomes_witness :
  _get_users_by_matrix_id (Fixtures.plugin (Some Fixtures.directory_two_matches))
    "@alice:matrix.org"
  = ([FasSearch "matrix://matrix.org/alice"], Raises TypeError).
Proof.
  refine (proj2 (proj2 (search_result_outcomes
            (Fixtures.plugin (Some Fixtures.directory_two_matches))
            Fixtures.directory_two_matches "@alice:matrix.org" "alice" "matrix.org" []
            [Fixtures.alice; Fixtures.alice2] eq_refl eq_refl _ eq_refl)) _ _).
  - discriminate.
  - apply le_n.
  - exists Fixtures.alice. split; [left; reflexivity | discriminate].
Defined.

(** ** Mentions in the rich-text body *)

Lemma mention_pair_is_ambiguous (self : Fedora) (username body : string)
      (evt : MessageEvent) :
  formatted_body evt = Some body ->
  2 <= List.length (findall_mention body) ->
  _get_fasuser_body username evt self = ([], Raises (InfoGatherError one_at_a_time)).
Proof.
  intros Hb Hlen. unfold _get_fasuser_body. rewrite Hb.
  destruct body as [| ch body']; [simpl in Hlen; lia |].
  cbn [String.eqb negb].
  destruct (Nat.ltb_spec 1 (List.length (findall_mention (String ch body'))));
    [reflexivity | lia].
Qed.

Lemma single_mention_is_used (self : Fedora) (username body m : string)
      (evt : MessageEvent) :
  formatted_body evt = Some body ->
  findall_mention body = [m] ->
  _get_fasuser_body username evt self = _get_users_by_matrix_id self m.
Proof.
  intros Hb Hm. unfold _get_fasuser_body. rewrite Hb.
  destruct body as [| ch body']; [discriminate Hm |].
  cbn [String.eqb negb]. rewrite Hm. reflexivity.
Qed.

Lemma guard_passes_raise {A : Type} (func : Fedora -> M A) (self : Fedora) (c : Client)
      (t : list event) (e : exn) :
  fasjsonclient self = Some c ->
  func self = (t, Raises e) ->
  (forall text, e <> ClientSetupError text) ->
  catch_generic_fasjson_errors func self = (t, Raises e).
Proof.
  intros Hc Hf He. rewrite (guard_transparent func self c Hc); [exact Hf |].
  intros text. rewrite Hf. simpl. intros E. injection E as E. exact (He text E).
Qed.

Lemma filter_length_le {A : Type} (p : A -> bool) (l : list A) :
  List.length (filter p l) <= List.length l.
Proof.
  induction l as [| x l IH]; [apply le_n |].
  simpl. destruct (p x); simpl; lia.
Qed.

(** C5: the mention pattern captures every link target under
    matrix.to, where the comment above it says it extracts the matrix
    user IDs, and the resolver counts what is captured.  Two or more
    chat-identity mentions make the resolver fail with the
    one-at-a-time message, issuing nothing and whatever the raw
    argument is; a body whose only link target is a chat identity hands
    it to the chat-identity lookup, and the raw argument is not read.
    But a body with exactly one chat-identity mention beside any other
    link target, a room for one, is refused with the one-at-a-time
    message: the identity it mentions is not used. *)
Theorem other_links_count_as_mentions (self : Fedora) (username body : string)
        (evt : MessageEvent) :
  formatted_body evt = Some body ->
  (2 <= List.length (identity_mentions body) ->
   _get_fasuser_body username evt self = ([], Raises (InfoGatherError one_at_a_time))
   /\ (forall c, fasjsonclient self = Some c ->
       _get_fasuser self username evt = ([], Raises (InfoGatherError one_at_a_time))))
  /\ (forall m, findall_mention body = [m] ->
      _get_fasuser_body username evt self = _get_users_by_matrix_id self m)
  /\ (forall m, identity_mentions body = [m] ->
      2 <= List.length (findall_mention body) ->
      _get_fasuser_body username evt self = ([], Raises (InfoGatherError one_at_a_time))
      /\ (forall c, fasjsonclient self = Some c ->
          _get_fasuser self username evt
          = ([], Raises (InfoGatherError one_at_a_time)))).
Proof.
  intros Hb.
  assert (Hpair : 2 <= List.length (findall_mention body) ->
                  _get_fasuser_body username evt self
                  = ([], Raises (InfoGatherError one_at_a_time))
                  /\ (forall c, fasjsonclient self = Some c ->
                      _get_fasuser self username evt
                      = ([], Raises (InfoGatherError one_at_a_time)))).
  { intros Hlen.
    assert (E := mention_pair_is_ambiguous self username body evt Hb Hlen).
    split; [exact E |].
    intros c Hc. unfold _get_fasuser.
    apply (guard_passes_raise _ self c _ _ Hc E). discriminate. }
  split; [| split].
  - intros Hlen. apply Hpair. unfold identity_mentions in Hlen.
    pose proof (filter_length_le search_mxid (findall_mention body)). lia.
  - intros m Hm. exact (single_mention_is_used self username body m evt Hb Hm).
  - intros m _ Hlen. exact (Hpair Hlen).
Qed.

(** One user mention beside a room link: the user is not looked up. *)
Lemma other_links_count_as_mentions_witness :
  identity_mentions Fixtures.user_and_room = ["@alice:fedora.im"]
  /\ _get_fasuser (Fixtures.plugin (Some Fixtures.directory)) "alice"
       (Fixtures.rich "@bob:fedora.im" Fixtures.user_and_room)
     = ([], Raises (InfoGatherError one_at_a_time)).
Proof.
  split; [reflexivity |].
  refine (proj2 (proj2 (proj2 (other_links_count_as_mentions
            (Fixtures.plugin (Some Fixtures.directory)) "alice" Fixtures.user_and_room
            (Fixtures.rich "@bob:fedora.im" Fixtures.user_and_room) eq_refl))
            "@alice:fedora.im" eq_refl _) Fixtures.directory eq_refl).
  vm_compute. apply le_n.
Defined.

(** C3: an identity string in which the chat-identity pattern finds no
    match makes the lookup raise IndexError, which the except clause
    (it names ValueError alone) does not catch: no InfoGatherError with
    the expected shape is raised.  No network call is issued.  A rich
    body whose single link target is such a string brings the resolver
    there, and the wrapper lets the IndexError through. *)
Theorem malformed_identity_raises_IndexError (self : Fedora) (username : string) :
  findall_mxid username = [] ->
  _get_users_by_matrix_id self username = ([], Raises IndexError)
  /\ (forall c raw body evt,
        fasjsonclient self = Some c ->
        formatted_body evt = Some body ->
        findall_mention body = [username] ->
        _get_fasuser self raw evt = ([], Raises IndexError)).
Proof.
  intros H.
  assert (E : _get_users_by_matrix_id self username = ([], Raises IndexError)).
  { unfold _get_users_by_matrix_id. rewrite H. reflexivity. }
  split; [exact E |].
  intros c raw body evt Hc Hb Hm. unfold _get_fasuser.
  apply (guard_passes_raise _ self c _ _ Hc); [| discriminate].
  rewrite (single_mention_is_used self raw body username evt Hb Hm). exact E.
Qed.

Lemma malformed_identity_raises_IndexError_witness :
  _get_fasuser (Fixtures.plugin (Some Fixtures.directory)) EmptyString
    (Fixtures.rich "@bob:fedora.im" (Fixtures.anchor "#devel:fedora.im" "#devel"))
  = ([], Raises IndexError).
Proof.
  exact (proj2 (malformed_identity_raises_IndexError
                  (Fixtures.plugin (Some Fixtures.directory)) "#devel:fedora.im" eq_refl)
           Fixtures.directory EmptyString
           (Fixtures.anchor "#devel:fedora.im" "#devel")
           (Fixtures.rich "@bob:fedora.im" (Fixtures.anchor "#devel:fedora.im" "#devel"))
           eq_refl eq_refl eq_refl).
Defined.

(** ** The direct lookup *)

Lemma person_lookup_raises (self : Fedora) (c : Client) (username text : string)
      (code : Z) :
  fasjsonclient self = Some c ->
  get_user c username = Raises (APIError code text) ->
  _get_person_by_username self username
  = ([FasGetUser username],
     Raises (if Z.eqb code 404
             then InfoGatherError ("Sorry, but Fedora Accounts user '" ++ username
                                     ++ "' does not exist")
             else UnboundLocalError "person")).
Proof.
  intros Hc Hg. unfold _get_person_by_username, fasjson. rewrite Hc.
  rewrite bind_ret_l, Hg. cbn. destruct (Z.eqb code 404); reflexivity.
Qed.

Lemma person_lookup_server_error (self : Fedora) (c : Client) (username text : string)
      (code : Z) :
  fasjsonclient self = Some c ->
  get_user c username = Raises (APIError code text) ->
  code <> 404%Z ->
  _get_person_by_username self username
  = ([FasGetUser username], Raises (UnboundLocalError "person")).
Proof.
  intros Hc Hg Hn. rewrite (person_lookup_raises self c username text code Hc Hg).
  destruct (Z.eqb_spec code 404); [contradiction | reflexivity].
Qed.

(** A plain-text argument with no space that does not look like a chat
    identity goes to the direct lookup. *)
Lemma plain_username_is_direct_lookup (self : Fedora) (username : string)
      (evt : MessageEvent) :
  username <> EmptyString ->
  formatted_body evt = None ->
  all_chars not_space username = true ->
  search_mxid username = false ->
  _get_fasuser_body username evt self = _get_person_by_username self username.
Proof.
  intros Hne Hb Hs Hm. unfold _get_fasuser_body. rewrite Hb.
  destruct (String.eqb_spec username EmptyString) as [E | _]; [contradiction |].
  rewrite (split_space_whole username Hs). cbn [List.length Nat.ltb Nat.leb].
  rewrite Hm. reflexivity.
Qed.

Lemma resolver_server_error (self : Fedora) (c : Client) (username text : string)
      (code : Z) (evt : MessageEvent) :
  fasjsonclient self = Some c ->
  get_user c username = Raises (APIError code text) ->
  code <> 404%Z ->
  username <> EmptyString ->
  formatted_body evt = None ->
  all_chars not_space username = true ->
  search_mxid username = false ->
  _get_fasuser self username evt
  = ([FasGetUser username], Raises (UnboundLocalError "person")).
Proof.
  intros Hc Hg Hn Hne Hb Hs Hm. unfold _get_fasuser.
  apply (guard_passes_raise _ self c _ _ Hc); [| discriminate].
  rewrite (plain_username_is_direct_lookup self username evt Hne Hb Hs Hm).
  exact (person_lookup_server_error self c username text code Hc Hg Hn).
Qed.

(** C6: when the directory answers the user query with an APIError, the
    direct lookup issues the one query; the code 404 gives the
    InfoGatherError that names the username, and every other code makes
    the lookup end in UnboundLocalError for its local person, which is
    neither a record nor an InfoGatherError, and which the resolver
    passes on unchanged. *)
Theorem person_lookup_api_error (self : Fedora) (c : Client) (username text : string)
        (code : Z) :
  fasjsonclient self = Some c ->
  get_user c username = Raises (APIError code text) ->
  (code = 404%Z ->
   _get_person_by_username self username
   = ([FasGetUser username],
      Raises (InfoGatherError ("Sorry, but Fedora Accounts user '" ++ username
                                 ++ "' does not exist"))))
  /\ (code <> 404%Z ->
      _get_person_by_username self username
      = ([FasGetUser username], Raises (UnboundLocalError "person"))
      /\ (forall evt,
            username <> EmptyString ->
            formatted_body evt = None ->
            all_chars not_space username = true ->
            search_mxid username = false ->
            _get_fasuser self username evt
            = ([FasGetUser username], Raises (UnboundLocalError "person")))).
Proof.
  intros Hc Hg. split.
  - intros ->. exact (person_lookup_raises self c username text 404 Hc Hg).
  - intros Hn. split.
    + exact (person_lookup_server_error self c username text code Hc Hg Hn).
    + intros evt Hne Hb Hs Hm.
      exact (resolver_server_error self c username text code evt Hc Hg Hn Hne Hb Hs Hm).
Qed.

Lemma person_lookup_api_error_witness :
  _get_person_by_username (Fixtures.plugin (Some Fixtures.directory_down)) "alice"
  = ([FasGetUser "alice"], Raises (UnboundLocalError "person")).
Proof.
  refine (proj1 (proj2 (person_lookup_api_error
            (Fixtures.plugin (Some Fixtures.directory_down)) Fixtures.directory_down
            "alice" "Internal Server Error" 500 eq_refl eq_refl) _)).
  discriminate.
Defined.

(** ** The handlers *)

Lemma or_respond_escapes {A : Type} (m : M A) (t : list event) (e : exn) :
  m = (t, Raises e) ->
  (forall message, e <> InfoGatherError message) ->
  or_respond m = (t, Raises e).
Proof.
  intros -> He. unfold or_respond. cbn [bind].
  apply try_except_uncaught. destruct e; try reflexivity.
  exfalso. apply (He message). reflexivity.
Qed.

Lemma hello_escapes (py_repr : value -> string) (self : Fedora) (evt : MessageEvent)
      (username : string) (t : list event) (e : exn) :
  _get_fasuser self username evt = (t, Raises e) ->
  (forall message, e <> InfoGatherError message) ->
  hello py_repr self evt username = (t, Raises e).
Proof.
  intros Hr He. unfold hello. rewrite (or_respond_escapes _ t e Hr He). reflexivity.
Qed.

Lemma user_escapes (py_repr : value -> string) (self : Fedora) (evt : MessageEvent)
      (username : string) (t : list event) (e : exn) :
  _get_fasuser self username evt = (t, Raises e) ->
  (forall message, e <> InfoGatherError message) ->
  user py_repr self evt username = (t, Raises e).
Proof.
  intros Hr He. unfold user. rewrite (or_respond_escapes _ t e Hr He). reflexivity.
Qed.

(** C9: the handlers hello and user end in an exception, with no reply
    at all, in two cases.  When the directory answers the user query
    with an APIError other than 404, the UnboundLocalError of the
    direct lookup leaves the handler after the one query.  When the
    rich body holds a single link target that is no chat identity, the
    IndexError of the chat-identity lookup leaves the handler before
    any event. *)
Theorem handlers_let_exceptions_escape (py_repr : value -> string) (self : Fedora)
        (c : Client) :
  fasjsonclient self = Some c ->
  (forall evt username code text,
      get_user c username = Raises (APIError code text) ->
      code <> 404%Z ->
      username <> EmptyString ->
      formatted_body evt = None ->
      all_chars not_space username = true ->
      search_mxid username = false ->
      hello py_repr self evt username
      = ([FasGetUser username], Raises (UnboundLocalError "person"))
      /\ user py_repr self evt username
         = ([FasGetUser username], Raises (UnboundLocalError "person")))
  /\ (forall evt raw body target,
        formatted_body evt = Some body ->
        findall_mention body = [target] ->
        findall_mxid target = [] ->
        hello py_repr self evt raw = ([], Raises IndexError)
        /\ user py_repr self evt raw = ([], Raises IndexError)).
Proof.
  intros Hc. split.
  - intros evt username code text Hg Hn Hne Hb Hs Hm.
    assert (E := resolver_server_error self c username text code evt
                   Hc Hg Hn Hne Hb Hs Hm).
    split; [apply hello_escapes | apply user_escapes]; try exact E; discriminate.
  - intros evt raw body target Hb Hm Hp.
    assert (E : _get_fasuser self raw evt = ([], Raises IndexError)).
    { unfold _get_fasuser.
      apply (guard_passes_raise _ self c _ _ Hc); [| discriminate].
      rewrite (single_mention_is_used self raw body target evt Hb Hm).
      unfold _get_users_by_matrix_id. rewrite Hp. reflexivity. }
    split; [apply hello_escapes | apply user_escapes]; try exact E; discriminate.
Qed.

Lemma handlers_let_exceptions_escape_witness :
  replies (hello Fixtures.repr0 (Fixtures.plugin (Some Fixtures.directory_down))
             (Fixtures.plain "@bob:fedora.im") "alice") = []
  /\ result (hello Fixtures.repr0 (Fixtures.plugin (Some Fixtures.directory_down))
               (Fixtures.plain "@bob:fedora.im") "alice")
     = Raises (UnboundLocalError "person").
Proof.
  assert (E : hello Fixtures.repr0 (Fixtures.plugin (Some Fixtures.directory_down))
                (Fixtures.plain "@bob:fedora.im") "alice"
              = ([FasGetUser "alice"], Raises (UnboundLocalError "person"))).
  { refine (proj1 (proj1 (handlers_let_exceptions_escape Fixtures.repr0
              (Fixtures.plugin (Some Fixtures.directory_down)) Fixtures.directory_down
              eq_refl) (Fixtures.plain "@bob:fedora.im") "alice" 500%Z
              "Internal Server Error" eq_refl _ _ eq_refl eq_refl eq_refl));
      discriminate. }
  rewrite E. split; reflexivity.
Defined.

(** ** The group replies *)

Lemma userlinks_enumerates (py_repr : value -> string) (self : Fedora)
      (group : list value) :
  forallb has_username group = true ->
  userlinks py_repr self group
  = Returns (PyStr.join ", " (map (fun m => _userlink py_repr self (username_of m)) group)).
Proof.
  intros H. unfold userlinks.
  assert (E : Py.map_outcome
                (fun m => match Py.getitem m "username" with
                          | Returns u => Returns (_userlink py_repr self u)
                          | Raises e => Raises e
                          end) group
              = Returns (map (fun m => _userlink py_repr self (username_of m)) group)).
  { induction group as [| m rest IH]; [reflexivity |].
    cbn [forallb] in H. apply andb_true_iff in H as [Hm Hrest].
    cbn [Py.map_outcome map]. unfold has_username in Hm. unfold username_of at 1.
    destruct (Py.getitem m "username") as [u | e]; [| discriminate Hm].
    rewrite (IH Hrest). reflexivity. }
  rewrite E. reflexivity.
Qed.

Lemma group_members_fetched (self : Fedora) (c : Client) (groupname : string)
      (ms : list value) :
  fasjsonclient self = Some c ->
  list_group_members c groupname = Returns ms ->
  _get_group_members self groupname = ([FasListGroupMembers groupname], Returns ms).
Proof.
  intros Hc Hm.
  unfold _get_group_members, catch_generic_fasjson_errors, _get_group_members_body, fasjson.
  rewrite Hc, bind_ret_l, Hm. reflexivity.
Qed.

Lemma group_sponsors_fetched (self : Fedora) (c : Client) (groupname : string)
      (ss : list value) :
  fasjsonclient self = Some c ->
  list_group_sponsors c groupname = Returns ss ->
  _get_group_sponsors self groupname = ([FasListGroupSponsors groupname], Returns ss).
Proof.
  intros Hc Hs.
  unfold _get_group_sponsors, catch_generic_fasjson_errors, _get_group_sponsors_body, fasjson.
  rewrite Hc, bind_ret_l, Hs. reflexivity.
Qed.

(** C8: once the members of a group are fetched, the reply of the
    members command lists a link for every member, in order, when the
    list has at most 200 entries (each carrying a username), and gives
    the count alone when it has more than 200. *)
Theorem members_reply_boundary (py_repr : value -> string) (self : Fedora)
        (c : Client) (evt : MessageEvent) (groupname : string) (ms : list value) :
  groupname <> EmptyString ->
  fasjsonclient self = Some c ->
  list_group_members c groupname = Returns ms ->
  (List.length ms <= 200 -> forallb has_username ms = true ->
   members py_repr self evt groupname
   = ([FasListGroupMembers groupname;
       Respond ("Members of " ++ groupname ++ ": "
                  ++ PyStr.join ", "
                       (map (fun m => _userlink py_repr self (username_of m)) ms))],
      Returns tt))
  /\ (200 < List.length ms ->
      members py_repr self evt groupname
      = ([FasListGroupMembers groupname;
          Respond (groupname ++ " has " ++ of_nat (List.length ms)
                     ++ " and thats too much to dump here")],
         Returns tt)).
Proof.
  intros Hg Hc Hm. unfold members, or_respond.
  destruct (String.eqb_spec groupname EmptyString) as [E | _]; [contradiction |].
  rewrite (group_members_fetched self c groupname ms Hc Hm).
  cbn [bind ret try_except app]. split.
  - intros Hle Hall.
    destruct (Nat.ltb_spec 200 (List.length ms)); [lia |].
    rewrite (userlinks_enumerates py_repr self ms Hall). reflexivity.
  - intros Hgt.
    destruct (Nat.ltb_spec 200 (List.length ms)); [| lia].
    reflexivity.
Qed.

(** The boundary itself: 200 members are listed, 201 are counted. *)
Lemma members_reply_boundary_witness :
  members Fixtures.repr0 (Fixtures.plugin (Some (Fixtures.directory_big 200)))
    (Fixtures.plain "@bob:fedora.im") "big"
  = ([FasListGroupMembers "big";
      Respond ("Members of big: "
                 ++ PyStr.join ", "
                      (repeat "[alice](https://accounts.fedoraproject.org/user/alice)" 200))],
     Returns tt)
  /\ members Fixtures.repr0 (Fixtures.plugin (Some (Fixtures.directory_big 201)))
       (Fixtures.plain "@bob:fedora.im") "big"
     = ([FasListGroupMembers "big";
         Respond "big has 201 and thats too much to dump here"],
        Returns tt).
Proof.
  split.
  - refine (proj1 (members_reply_boundary Fixtures.repr0
              (Fixtures.plugin (Some (Fixtures.directory_big 200)))
              (Fixtures.directory_big 200) (Fixtures.plain "@bob:fedora.im") "big"
              (repeat Fixtures.alice 200) _ eq_refl eq_refl) _ _).
    + discriminate.
    + rewrite repeat_length. apply le_n.
    + vm_compute. reflexivity.
  - refine (proj2 (members_reply_boundary Fixtures.repr0
              (Fixtures.plugin (Some (Fixtures.directory_big 201)))
              (Fixtures.directory_big 201) (Fixtures.plain "@bob:fedora.im") "big"
              (repeat Fixtures.alice 201) _ eq_refl eq_refl) _).
    + discriminate.
    + rewrite repeat_length. apply le_n.
Defined.

(** C10: once the sponsors of a group are fetched (each carrying a
    username), the reply of the sponsors command lists a link for every
    sponsor, in order, whatever the length of the list; no count-only
    form exists for sponsors. *)
Theorem sponsors_reply_enumerates (py_repr : value -> string) (self : Fedora)
        (c : Client) (evt : MessageEvent) (groupname : string) (ss : list value) :
  groupname <> EmptyString ->
  fasjsonclient self = Some c ->
  list_group_sponsors c groupname = Returns ss ->
  forallb has_username ss = true ->
  sponsors py_repr self evt groupname
  = ([FasListGroupSponsors groupname;
      Respond ("Sponsors of " ++ groupname ++ ": "
                 ++ PyStr.join ", "
                      (map (fun s => _userlink py_repr self (username_of s)) ss))],
     Returns tt).
Proof.
  intros Hg Hc Hs Hall. unfold sponsors, or_respond.
  destruct (String.eqb_spec groupname EmptyString) as [E | _]; [contradiction |].
  rewrite (group_sponsors_fetched self c groupname ss Hc Hs).
  cbn [bind ret try_except app].
  rewrite (userlinks_enumerates py_repr self ss Hall). reflexivity.
Qed.

(** 201 sponsors are all listed. *)
Lemma sponsors_reply_enumerates_witness :
  sponsors Fixtures.repr0 (Fixtures.plugin (Some (Fixtures.directory_big 201)))
    (Fixtures.plain "@bob:fedora.im") "big"
  = ([FasListGroupSponsors "big";
      Respond ("Sponsors of big: "
                 ++ PyStr.join ", "
                      (repeat "[alice](https://accounts.fedoraproject.org/user/alice)" 201))],
     Returns tt).
Proof.
  refine (sponsors_reply_enumerates Fixtures.repr0
            (Fixtures.plugin (Some (Fixtures.directory_big 201)))
            (Fixtures.directory_big 201) (Fixtures.plain "@bob:fedora.im") "big"
            (repeat Fixtures.alice 201) _ eq_refl eq_refl _).
  - discriminate.
  - vm_compute. reflexivity.
Defined.

(** ** The issue tracker *)

Lemma get_dict (k : string) (d : list (string * value)) :
  Py.get (VDict d) k = Returns (field k d).
Proof. unfold Py.get, field. destruct (Py.lookup k d); reflexivity. Qed.

(** After the request and the decoding of the body, the outcome is
    decided by the status code and the body alone. *)
Lemma pagure_issue_unfold (py_repr : value -> string) (self : Fedora)
      (project issue_id namespace : string) (response : Response) (body : value) :
  httpx_get self (endpoint self project issue_id namespace) = Returns response ->
  json response = Returns body ->
  _get_pagure_issue py_repr self project issue_id namespace
  = (let (t, r) :=
       (if Z.eqb (status_code response) 404 then
          error_code <- lift (Py.get body "error_code") ;;
          error <- lift (Py.get body "error") ;;
          if Py.eq_str error_code "ENOPROJECT" then
            raise (InfoGatherError ("Project " ++ project ++ " not found"))
          else if Py.eq_str error_code "ENOISSUE" then
            raise (InfoGatherError
                     ("Issue #" ++ issue_id ++ " not found on " ++ project ++ " project"))
          else
            raise (InfoGatherError
                     ("Issue querying Pagure: " ++ str py_repr error_code ++ ": "
                        ++ str py_repr error))
        else if negb (Z.eqb (status_code response) 200) then
          raise (InfoGatherError
                   ("Issue querying Pagure: " ++ of_Z (status_code response) ++ ": "
                      ++ reason_phrase response))
        else ret body) in
     (HttpGet (endpoint self project issue_id namespace) :: t, r)).
Proof.
  intros Hget Hjson. unfold _get_pagure_issue.
  fold (endpoint self project issue_id namespace).
  rewrite Hget, bind_perform_returns, Hjson.
  rewrite lift_returns, bind_ret_l.
  match goal with |- (_ :: events ?m, result ?m) = _ => destruct m end. reflexivity.
Qed.

Lemma pagure_issue_undecoded (py_repr : value -> string) (self : Fedora)
      (project issue_id namespace : string) (response : Response) (e : exn) :
  httpx_get self (endpoint self project issue_id namespace) = Returns response ->
  json response = Raises e ->
  _get_pagure_issue py_repr self project issue_id namespace
  = ([HttpGet (endpoint self project issue_id namespace)], Raises e).
Proof.
  intros Hget Hjson. unfold _get_pagure_issue.
  fold (endpoint self project issue_id namespace).
  rewrite Hget, bind_perform_returns, Hjson. reflexivity.
Qed.

(** C7: when the tracker answers the request, a 404 whose body is an
    object gives the project-not-found message for the code
    ENOPROJECT, the issue-not-found message for ENOISSUE, and for any
    other code the message that carries the code and the error text;
    any other status but 200 whose body decodes gives the message that
    carries the status number and its reason phrase; a 200 returns the
    body, from whose title and full_url fields the issue command builds
    its reply.  But the body is decoded before the status is read: a
    response whose body does not decode, a gateway error with a page of
    HTML for one, ends the lookup with the decoder's exception whatever
    the status, the message with the status number is not produced,
    and the issue command ends with no reply. *)
Theorem get_issue_outcomes (py_repr : value -> string) (self : Fedora)
        (project issue_id namespace : string) (response : Response) :
  httpx_get self (endpoint self project issue_id namespace) = Returns response ->
  let call := HttpGet (endpoint self project issue_id namespace) in
  let run := _get_pagure_issue py_repr self project issue_id namespace in
  (forall e, json response = Raises e ->
     run = ([call], Raises e)
     /\ (forall evt, namespace = EmptyString ->
         (forall message, e <> InfoGatherError message) ->
         pagureissue py_repr self evt project issue_id = ([call], Raises e)))
  /\ (forall body, json response = Returns body ->
      (forall d, status_code response = 404%Z -> body = VDict d ->
         (field "error_code" d = VStr "ENOPROJECT" ->
          run = ([call], Raises (InfoGatherError ("Project " ++ project ++ " not found"))))
         /\ (field "error_code" d = VStr "ENOISSUE" ->
             run = ([call], Raises (InfoGatherError
                      ("Issue #" ++ issue_id ++ " not found on " ++ project
                         ++ " project"))))
         /\ (field "error_code" d <> VStr "ENOPROJECT" ->
             field "error_code" d <> VStr "ENOISSUE" ->
             run = ([call], Raises (InfoGatherError
                      ("Issue querying Pagure: " ++ str py_repr (field "error_code" d)
                         ++ ": " ++ str py_repr (field "error" d))))))
      /\ (status_code response <> 404%Z -> status_code response <> 200%Z ->
          run = ([call], Raises (InfoGatherError
                   ("Issue querying Pagure: " ++ of_Z (status_code response) ++ ": "
                      ++ reason_phrase response))))
      /\ (status_code response = 200%Z ->
          run = ([call], Returns body)
          /\ forall evt d, namespace = EmptyString -> body = VDict d ->
               pagureissue py_repr self evt project issue_id
               = ([call; Respond ("[" ++ project ++ " #" ++ issue_id ++ "]("
                                    ++ str py_repr (field "full_url" d) ++ "): "
                                    ++ str py_repr (field "title" d))],
                  Returns tt))).
Proof.
  intros Hget call run. split.
  { intros e Hjson.
    assert (E := pagure_issue_undecoded py_repr self project issue_id namespace
                   response e Hget Hjson).
    split; [exact E |].
    intros evt Hn He. subst namespace. unfold pagureissue.
    rewrite (or_respond_escapes _ _ e E He). reflexivity. }
  intros body Hjson.
  assert (Hrun := pagure_issue_unfold py_repr self project issue_id namespace
                    response body Hget Hjson).
  fold run in Hrun. fold call in Hrun.
  split; [| split].
  - intros d H404 ->. rewrite H404 in Hrun. cbn [Z.eqb Pos.eqb] in Hrun.
    rewrite !get_dict, !lift_returns, !bind_ret_l in Hrun.
    repeat split.
    + intros E. rewrite E in Hrun. exact Hrun.
    + intros E. rewrite E in Hrun. exact Hrun.
    + intros N1 N2. rewrite Hrun.
      destruct (field "error_code" d) as [| b | z | s | l | e]; try reflexivity.
      unfold Py.eq_str.
      destruct (String.eqb_spec s "ENOPROJECT") as [-> | _];
        [contradiction N1; reflexivity |].
      destruct (String.eqb_spec s "ENOISSUE") as [-> | _];
        [contradiction N2; reflexivity |].
      reflexivity.
  - intros N404 N200. rewrite Hrun.
    destruct (Z.eqb_spec (status_code response) 404); [contradiction |].
    destruct (Z.eqb_spec (status_code response) 200); [contradiction |].
    reflexivity.
  - intros H200. assert (E : run = ([call], Returns body)).
    { rewrite Hrun, H200. reflexivity. }
    split; [exact E |].
    intros evt d -> ->. unfold pagureissue, or_respond.
    fold run. rewrite E. cbn [bind ret try_except app].
    rewrite !get_dict. reflexivity.
Qed.

(** A gateway error whose body is no JSON: no status message, no reply. *)
Lemma get_issue_outcomes_witness :
  _get_pagure_issue Fixtures.repr0 (Fixtures.tracker Fixtures.bad_gateway)
    "epel" "123" EmptyString
  = ([HttpGet "https://pagure.io/api/0//epel/issue/123"],
     Raises (OtherError "JSONDecodeError"))
  /\ pagureissue Fixtures.repr0 (Fixtures.tracker Fixtures.bad_gateway)
       (Fixtures.plain "@bob:fedora.im") "epel" "123"
     = ([HttpGet "https://pagure.io/api/0//epel/issue/123"],
        Raises (OtherError "JSONDecodeError")).
Proof.
  destruct (proj1 (get_issue_outcomes Fixtures.repr0
                     (Fixtures.tracker Fixtures.bad_gateway) "epel" "123" EmptyString
                     Fixtures.bad_gateway eq_refl)
              (OtherError "JSONDecodeError") eq_refl) as [Hrun Hcmd].
  split; [exact Hrun |].
  apply Hcmd; [reflexivity | discriminate].
Defined.

(** The answers of the tracker for an unknown project, an unknown
    issue and a server error with a JSON body. *)
Example get_issue_enoproject :
  _get_pagure_issue Fixtures.repr0 (Fixtures.tracker Fixtures.no_project)
    "epel" "123" EmptyString
  = ([HttpGet "https://pagure.io/api/0//epel/issue/123"],
     Raises (InfoGatherError "Project epel not found")).
Proof. reflexivity. Qed.

Example get_issue_enoissue :
  _get_pagure_issue Fixtures.repr0
    (Fixtures.tracker
       {| status_code := 404; reason_phrase := "NOT FOUND";
          json := Returns (VDict [("error", VStr "Issue not found");
                                  ("error_code", VStr "ENOISSUE")]) |})
    "epel" "123" EmptyString
  = ([HttpGet "https://pagure.io/api/0//epel/issue/123"],
     Raises (InfoGatherError "Issue #123 not found on epel project")).
Proof. reflexivity. Qed.

Example get_issue_500 :
  _get_pagure_issue Fixtures.repr0
    (Fixtures.tracker
       {| status_code := 500; reason_phrase := "Internal Server Error";
          json := Returns (VDict []) |})
    "epel" "123" EmptyString
  = ([HttpGet "https://pagure.io/api/0//epel/issue/123"],
     Raises (InfoGatherError "Issue querying Pagure: 500: Internal Server Error")).
Proof. reflexivity. Qed.

(** * Further properties *)

(** ** The wrapper and the resolver *)

Lemma guard_converts_setup_error {A : Type} (func : Fedora -> M A) (self : Fedora)
      (c : Client) (t : list event) (text : string) :
  fasjsonclient self = Some c ->
  func self = (t, Raises (ClientSetupError text)) ->
  catch_generic_fasjson_errors func self
  = (t, Raises (InfoGatherError (expired_message text))).
Proof.
  intros Hc Hf. unfold catch_generic_fasjson_errors. rewrite Hc, Hf.
  unfold try_except, raise. rewrite app_nil_r. reflexivity.
Qed.

Lemma or_respond_reports {A : Type} (m : M A) (t : list event) (message : string) :
  m = (t, Raises (InfoGatherError message)) ->
  or_respond m = ((t ++ [Respond message])%list, Returns None).
Proof. intros ->. reflexivity. Qed.

Lemma or_respond_returns {A : Type} (m : M A) (t : list event) (a : A) :
  m = (t, Returns a) -> or_respond m = (t, Returns (Some a)).
Proof. intros ->. unfold or_respond. cbn. rewrite app_nil_r. reflexivity. Qed.

Lemma person_lookup_setup_error (self : Fedora) (c : Client) (username text : string) :
  fasjsonclient self = Some c ->
  get_user c username = Raises (ClientSetupError text) ->
  _get_person_by_username self username
  = ([FasGetUser username], Raises (ClientSetupError text)).
Proof.
  intros Hc Hg. unfold _get_person_by_username, fasjson.
  rewrite Hc, bind_ret_l, Hg. reflexivity.
Qed.

(** X1: when the session of the directory client has expired, so that
    the query raises ClientSetupError, the wrapper turns it into the
    expired-session message: hello on a plain username, and members on
    a group, send that message as their one reply after the one query
    and return. *)
Theorem expired_session_is_reported (py_repr : value -> string) (self : Fedora)
        (c : Client) (evt : MessageEvent) (text : string) :
  fasjsonclient self = Some c ->
  (forall username,
      get_user c username = Raises (ClientSetupError text) ->
      username <> EmptyString ->
      formatted_body evt = None ->
      all_chars not_space username = true ->
      search_mxid username = false ->
      hello py_repr self evt username
      = ([FasGetUser username; Respond (expired_message text)], Returns tt))
  /\ (forall groupname,
        list_group_members c groupname = Raises (ClientSetupError text) ->
        groupname <> EmptyString ->
        members py_repr self evt groupname
        = ([FasListGroupMembers groupname; Respond (expired_message text)], Returns tt)).
Proof.
  intros Hc. split.
  - intros username Hg Hne Hb Hs Hm. unfold hello.
    rewrite (or_respond_reports _ [FasGetUser username] (expired_message text));
      [reflexivity |].
    unfold _get_fasuser. apply (guard_converts_setup_error _ self c _ _ Hc).
    rewrite (plain_username_is_direct_lookup self username evt Hne Hb Hs Hm).
    exact (person_lookup_setup_error self c username text Hc Hg).
  - intros groupname Hg Hne. unfold members.
    destruct (String.eqb_spec groupname EmptyString) as [E | _]; [contradiction |].
    rewrite (or_respond_reports _ [FasListGroupMembers groupname] (expired_message text));
      [reflexivity |].
    unfold _get_group_members. apply (guard_converts_setup_error _ self c _ _ Hc).
    unfold _get_group_members_body, fasjson. rewrite Hc, bind_ret_l, Hg. reflexivity.
Qed.

Lemma expired_session_is_reported_witness :
  hello Fixtures.repr0 (Fixtures.plugin (Some MoreFixtures.directory_expired))
    (Fixtures.plain "@bob:fedora.im") "carol"
  = ([FasGetUser "carol"; Respond (expired_message "ticket expired")], Returns tt).
Proof.
  refine (proj1 (expired_session_is_reported Fixtures.repr0
            (Fixtures.plugin (Some MoreFixtures.directory_expired))
            MoreFixtures.directory_expired (Fixtures.plain "@bob:fedora.im")
            "ticket expired" eq_refl) "carol" eq_refl _ eq_refl eq_refl eq_refl).
  discriminate.
Defined.

(** Only the link targets of the rich-text body matter to the resolver. *)
Lemma no_targets_ignores_body (self : Fedora) (username : string) (evt : MessageEvent) :
  link_targets evt = [] ->
  _get_fasuser_body username evt self
  = _get_fasuser_body username
      {| sender := sender evt; formatted_body := None |} self.
Proof.
  unfold link_targets, _get_fasuser_body. cbn [sender formatted_body].
  destruct (formatted_body evt) as [body |]; [| reflexivity].
  intros H. rewrite H. cbn [List.length Nat.ltb Nat.leb Nat.eqb].
  destruct (negb (String.eqb body EmptyString)); reflexivity.
Qed.

Lemma split_space_nonempty (s : string) : 1 <= List.length (split_space s).
Proof.
  induction s as [| c s IH]; [apply le_n |].
  simpl. destruct (Ascii.eqb c " "%char); simpl; [lia |].
  destruct (split_space s); simpl in *; lia.
Qed.

Lemma split_space_splits (s : string) :
  all_chars not_space s = false -> 2 <= List.length (split_space s).
Proof.
  induction s as [| c s IH]; [discriminate |].
  simpl. unfold not_space at 1.
  destruct (Ascii.eqb c " "%char); simpl.
  - intros _. pose proof (split_space_nonempty s). lia.
  - intros H. specialize (IH H). destruct (split_space s); simpl in *; lia.
Qed.

(** X2: when the body holds no link target, a raw argument that
    contains a space, also a leading, trailing or doubled one, is
    refused with the one-at-a-time message before any query. *)
Theorem space_in_argument_is_rejected (self : Fedora) (username : string)
        (evt : MessageEvent) :
  all_chars not_space username = false ->
  link_targets evt = [] ->
  _get_fasuser_body username evt self = ([], Raises (InfoGatherError one_at_a_time))
  /\ (forall c, fasjsonclient self = Some c ->
      _get_fasuser self username evt = ([], Raises (InfoGatherError one_at_a_time))).
Proof.
  intros Hs Ht.
  assert (E : _get_fasuser_body username evt self
              = ([], Raises (InfoGatherError one_at_a_time))).
  { rewrite (no_targets_ignores_body self username evt Ht).
    unfold _get_fasuser_body. cbn [sender formatted_body].
    destruct (String.eqb_spec username EmptyString) as [-> | _]; [discriminate Hs |].
    pose proof (split_space_splits username Hs) as Hlen.
    destruct (Nat.ltb_spec 1 (List.length (split_space username))); [reflexivity | lia]. }
  split; [exact E |].
  intros c Hc. unfold _get_fasuser.
  apply (guard_passes_raise _ self c _ _ Hc E). discriminate.
Qed.

Lemma space_in_argument_is_rejected_witness :
  _get_fasuser (Fixtures.plugin (Some Fixtures.directory)) "alice "
    (Fixtures.plain "@bob:fedora.im")
  = ([], Raises (InfoGatherError one_at_a_time)).
Proof.
  exact (proj2 (space_in_argument_is_rejected (Fixtures.plugin (Some Fixtures.directory))
                  "alice " (Fixtures.plain "@bob:fedora.im") eq_refl eq_refl)
           Fixtures.directory eq_refl).
Defined.

(** X3: an empty raw argument is resolved as the identity of the
    sender.  For a sender of the form [@l:fedora.im] (no line feed or
    space in [l]) and a body without link target, the resolver is the
    direct lookup of the username [l]. *)
Theorem no_argument_looks_up_sender (self : Fedora) (evt : MessageEvent) :
  _get_fasuser self EmptyString evt = _get_fasuser self (sender evt) evt
  /\ (forall l,
        sender evt = "@" ++ l ++ ":fedora.im" ->
        link_targets evt = [] ->
        all_chars dot l = true ->
        all_chars not_space l = true ->
        _get_fasuser_body EmptyString evt self = _get_person_by_username self l).
Proof.
  split.
  - unfold _get_fasuser, catch_generic_fasjson_errors, _get_fasuser_body.
    cbn [String.eqb]. destruct (String.eqb (sender evt) EmptyString); reflexivity.
  - intros l Hsender Ht Hl Hs.
    rewrite (no_targets_ignores_body self EmptyString evt Ht).
    unfold _get_fasuser_body. cbn [sender formatted_body String.eqb]. rewrite Hsender.
    destruct (findall_mxid_wellformed l "fedora.im" Hl eq_refl eq_refl) as [rest Hp].
    change (findall_mxid ("@" ++ l ++ ":fedora.im") = (l, "fedora.im") :: rest) in Hp.
    rewrite split_space_whole.
    + cbn [List.length Nat.ltb Nat.leb]. unfold search_mxid. rewrite Hp.
      exact (home_server_is_direct_lookup self _ l rest Hp).
    + change ("@" ++ l ++ ":fedora.im") with (String "@"%char (l ++ ":fedora.im")).
      cbn [all_chars]. rewrite all_chars_app, Hs. reflexivity.
Qed.

Lemma no_argument_looks_up_sender_witness :
  _get_fasuser_body EmptyString (Fixtures.plain "@alice:fedora.im")
    (Fixtures.plugin (Some Fixtures.directory))
  = _get_person_by_username (Fixtures.plugin (Some Fixtures.directory)) "alice".
Proof.
  exact (proj2 (no_argument_looks_up_sender (Fixtures.plugin (Some Fixtures.directory))
                  (Fixtures.plain "@alice:fedora.im"))
           "alice" eq_refl eq_refl eq_refl eq_refl).
Defined.

Lemma guard_events {A : Type} (func : Fedora -> M A) (self : Fedora) :
  events (catch_generic_fasjson_errors func self) = []
  \/ events (catch_generic_fasjson_errors func self) = events (func self).
Proof.
  unfold catch_generic_fasjson_errors.
  destruct (fasjsonclient self); [| left; reflexivity].
  right. destruct (func self) as [t [a | e]]; [reflexivity |].
  destruct e; try reflexivity.
  unfold try_except, raise, events. simpl. apply app_nil_r.
Qed.

(** The events of a lookup that raises in a pure step after its call. *)
Lemma matrix_id_events (self : Fedora) (username : string) :
  events (_get_users_by_matrix_id self username) = []
  \/ (exists u, events (_get_users_by_matrix_id self username) = [FasGetUser u])
  \/ (exists k, events (_get_users_by_matrix_id self username) = [FasSearch k]).
Proof.
  unfold _get_users_by_matrix_id.
  destruct (findall_mxid username) as [| [l d] rest]; [left; reflexivity |].
  rewrite try_except_ret, bind_ret_l.
  destruct (String.eqb d "fedora.im").
  - destruct (person_lookup_events self l) as [E | E]; rewrite E;
      [left; reflexivity | right; left; eexists; reflexivity].
  - unfold fasjson. destruct (fasjsonclient self) as [c |]; [| left; reflexivity].
    right; right. exists ("matrix://" ++ d ++ "/" ++ l). rewrite bind_ret_l.
    destruct (search c ("matrix://" ++ d ++ "/" ++ l)) as [found | e]; [| reflexivity].
    rewrite bind_perform_returns. cbn [events fst]. f_equal.
    destruct (Nat.ltb 1 (List.length found)).
    + unfold lift. destruct (Py.join NL found); reflexivity.
    + destruct (Nat.eqb (List.length found) 0); [reflexivity |].
      destruct found; reflexivity.
Qed.

Lemma resolver_body_events (self : Fedora) (username : string) (evt : MessageEvent) :
  events (_get_fasuser_body username evt self) = []
  \/ (exists u, events (_get_fasuser_body username evt self) = [FasGetUser u])
  \/ (exists k, events (_get_fasuser_body username evt self) = [FasSearch k]).
Proof.
  assert (Hperson : forall u,
             events (_get_person_by_username self u) = []
             \/ (exists u', events (_get_person_by_username self u) = [FasGetUser u'])
             \/ (exists k, events (_get_person_by_username self u) = [FasSearch k])).
  { intros u. destruct (person_lookup_events self u) as [E | E]; rewrite E;
      [left; reflexivity | right; left; eexists; reflexivity]. }
  unfold _get_fasuser_body.
  set (name := if String.eqb username EmptyString then sender evt else username).
  assert (Hplain :
            let m := (if Nat.ltb 1 (List.length (split_space name))
                      then raise (InfoGatherError one_at_a_time)
                      else match split_space name with
                           | u0 :: _ => if search_mxid u0
                                        then _get_users_by_matrix_id self u0
                                        else _get_person_by_username self u0
                           | [] => raise IndexError
                           end) in
            events m = [] \/ (exists u, events m = [FasGetUser u])
            \/ (exists k, events m = [FasSearch k])).
  { cbv zeta. destruct (Nat.ltb 1 (List.length (split_space name))); [left; reflexivity |].
    destruct (split_space name) as [| u0 ?]; [left; reflexivity |].
    destruct (search_mxid u0); [apply matrix_id_events | apply Hperson]. }
  cbv zeta in Hplain.
  destruct (formatted_body evt) as [body |]; [| exact Hplain].
  destruct (negb (String.eqb body EmptyString)); [| exact Hplain].
  destruct (Nat.ltb 1 (List.length (findall_mention body))); [left; reflexivity |].
  destruct (Nat.eqb (List.length (findall_mention body)) 1); [| exact Hplain].
  destruct (findall_mention body) as [| m ?]; [left; reflexivity |].
  apply matrix_id_events.
Qed.

Lemma resolver_events (self : Fedora) (username : string) (evt : MessageEvent) :
  events (_get_fasuser self username evt) = []
  \/ (exists u, events (_get_fasuser self username evt) = [FasGetUser u])
  \/ (exists k, events (_get_fasuser self username evt) = [FasSearch k]).
Proof.
  unfold _get_fasuser.
  destruct (guard_events (_get_fasuser_body username evt) self) as [E | E]; rewrite E;
    [left; reflexivity | apply resolver_body_events].
Qed.

(** X4: whatever its arguments and the answers of the directory, one
    resolution issues at most one network call, a user query or a
    search, and never sends a message to the room itself. *)
Theorem resolver_issues_one_call_at_most (self : Fedora) (username : string)
        (evt : MessageEvent) :
  List.length (network_calls (_get_fasuser self username evt)) <= 1
  /\ replies (_get_fasuser self username evt) = []
  /\ (forall ev, In ev (events (_get_fasuser self username evt)) ->
      (exists u, ev = FasGetUser u) \/ (exists k, ev = FasSearch k)).
Proof.
  unfold network_calls, replies.
  destruct (resolver_events self username evt) as [E | [[u E] | [k E]]]; rewrite E.
  - repeat split; [apply le_0_n | intros ev []].
  - repeat split; [apply le_n |].
    intros ev [<- | []]. left. eexists. reflexivity.
  - repeat split; [apply le_n |].
    intros ev [<- | []]. right. eexists. reflexivity.
Qed.

Lemma no_colon_no_split (d : string) :
  all_chars no_colon d = true -> rsplit_colon d = None.
Proof.
  induction d as [| c d IH]; [reflexivity |].
  simpl. intros H. apply andb_true_iff in H as [Hc Hd].
  rewrite (IH Hd). unfold no_colon in Hc. apply negb_true_iff in Hc. rewrite Hc.
  reflexivity.
Qed.

(** X5: the identity [@l:d] is split at its last colon.  With a domain
    [d] free of colons and line feeds and other than the home server,
    the lookup issues exactly the search keyed on matrix://d/l, also
    when [l] itself holds colons; a server name with a port is thus
    never taken whole as the domain. *)
Theorem search_key_splits_at_last_colon (self : Fedora) (c : Client) (l d : string) :
  fasjsonclient self = Some c ->
  all_chars dot l = true ->
  all_chars dot d = true ->
  all_chars no_colon d = true ->
  d <> "fedora.im" ->
  events (_get_users_by_matrix_id self ("@" ++ l ++ ":" ++ d))
  = [FasSearch ("matrix://" ++ d ++ "/" ++ l)].
Proof.
  intros Hc Hl Hd Hn Hne.
  destruct (findall_mxid_wellformed l d Hl Hd (no_colon_no_split d Hn)) as [rest Hp].
  rewrite (matrix_id_search self c _ l d rest Hc Hp Hne).
  destruct (search c ("matrix://" ++ d ++ "/" ++ l)) as [found | e]; [| reflexivity].
  rewrite bind_perform_returns. cbn [events fst]. f_equal.
  destruct (Nat.ltb 1 (List.length found)).
  - unfold lift. destruct (Py.join NL found); reflexivity.
  - destruct (Nat.eqb (List.length found) 0); [reflexivity |].
    destruct found; reflexivity.
Qed.

Lemma search_key_splits_at_last_colon_witness :
  events (_get_users_by_matrix_id (Fixtures.plugin (Some Fixtures.directory))
            "@carol:example.org:8448")
  = [FasSearch "matrix://8448/carol:example.org"].
Proof.
  refine (search_key_splits_at_last_colon (Fixtures.plugin (Some Fixtures.directory))
            Fixtures.directory "carol:example.org" "8448" eq_refl eq_refl eq_refl
            eq_refl _).
  discriminate.
Defined.

Lemma all_str_strings (names : list string) :
  Py.all_str (map VStr names) = Returns names.
Proof.
  induction names as [| n names IH]; [reflexivity |].
  simpl. rewrite IH. reflexivity.
Qed.

(** X6: the listing of the candidates works when the matches are
    strings: with two or more of them the failure message gives their
    number, the identity and then the matches, one per line. *)
Theorem matches_that_are_strings_are_listed (self : Fedora) (c : Client)
        (username l d : string) (rest : list (string * string)) (names : list string) :
  fasjsonclient self = Some c ->
  findall_mxid username = (l, d) :: rest ->
  d <> "fedora.im" ->
  search c ("matrix://" ++ d ++ "/" ++ l) = Returns (map VStr names) ->
  2 <= List.length names ->
  _get_users_by_matrix_id self username
  = ([FasSearch ("matrix://" ++ d ++ "/" ++ l)],
     Raises (InfoGatherError
               (of_nat (List.length names) ++ " Fedora Accounts users have the "
                  ++ username ++ " Matrix Account defined:" ++ NL
                  ++ PyStr.join NL names))).
Proof.
  intros Hc Hp Hd Hs Hlen.
  rewrite (matrix_id_search self c username l d rest Hc Hp Hd), Hs.
  rewrite bind_perform_returns, length_map.
  destruct (Nat.ltb_spec 1 (List.length names)); [| lia].
  unfold Py.join. rewrite all_str_strings. reflexivity.
Qed.

Lemma matches_that_are_strings_are_listed_witness :
  _get_users_by_matrix_id (Fixtures.plugin (Some MoreFixtures.directory_carol))
    "@carol:example.org"
  = ([FasSearch "matrix://example.org/carol"],
     Raises (InfoGatherError
               ("2 Fedora Accounts users have the @carol:example.org Matrix Account defined:"
                  ++ NL ++ "carol" ++ NL ++ "carol2"))).
Proof.
  refine (matches_that_are_strings_are_listed
            (Fixtures.plugin (Some MoreFixtures.directory_carol))
            MoreFixtures.directory_carol "@carol:example.org" "carol" "example.org" []
            ["carol"; "carol2"] eq_refl eq_refl _ eq_refl _).
  - discriminate.
  - apply le_n.
Defined.

(** ** The patterns *)

Lemma findall_from_In {G : Type} (match_at : string -> option (G * nat))
      (P : G -> Prop) :
  (forall s g n, match_at s = Some (g, n) -> P g) ->
  forall s skip g, In g (findall_from match_at skip s) -> P g.
Proof.
  intros Hm. induction s as [| c s IH]; intros skip g.
  - destruct skip; simpl; [| intros []].
    destruct (match_at EmptyString) as [[g0 n] |] eqn:E; [| intros []].
    intros [<- | []]. exact (Hm _ _ _ E).
  - destruct skip; simpl.
    + destruct (match_at (String c s)) as [[g0 n] |] eqn:E.
      * intros [<- | Hin]; [exact (Hm _ _ _ E) | exact (IH _ _ Hin)].
      * apply IH.
    + apply IH.
Qed.

Lemma take_while_keeps (p : ascii -> bool) (s : string) :
  all_chars p (take_while p s) = true.
Proof.
  induction s as [| c s IH]; [reflexivity |].
  simpl. destruct (p c) eqn:E; [| reflexivity].
  simpl. rewrite E, IH. reflexivity.
Qed.

Lemma rsplit_colon_parts (s a b : string) :
  rsplit_colon s = Some (a, b) ->
  s = a ++ String ":"%char b /\ all_chars no_colon b = true.
Proof.
  revert a b. induction s as [| c s IH]; intros a b; [discriminate |].
  simpl. destruct (rsplit_colon s) as [[a' b'] |] eqn:E.
  - intros H. injection H as <- <-. destruct (IH a' b' eq_refl) as [-> Hb].
    split; [reflexivity | exact Hb].
  - destruct (Ascii.eqb_spec c ":"%char) as [-> | _]; [| discriminate].
    intros H. injection H as <- <-. split; [reflexivity |].
    clear IH. induction s as [| c s IHs]; [reflexivity |].
    simpl in E. destruct (rsplit_colon s) as [[? ?] |]; [discriminate |].
    simpl. unfold no_colon at 1.
    destruct (Ascii.eqb c ":"%char); [discriminate |]. exact (IHs eq_refl).
Qed.

(** X7: every link target captured in a rich-text body is non-empty
    and holds no quote, no space and no closing angle bracket. *)
Theorem link_targets_are_clean (body target : string) :
  In target (findall_mention body) ->
  target <> EmptyString /\ all_chars link_char target = true.
Proof.
  unfold findall_mention, findall.
  apply (findall_from_In match_mention_at
           (fun g => g <> EmptyString /\ all_chars link_char g = true)).
  intros s g n. unfold match_mention_at.
  destruct (strip_prefix "href=" s) as [r1 |]; [| discriminate].
  destruct (strip_prefix "http" _) as [r3 |]; [| discriminate].
  destruct (strip_prefix "://matrix" _) as [[| ch r6] |]; try discriminate.
  destruct (dot ch); [| discriminate].
  destruct (strip_prefix "to/#/" r6) as [r7 |]; [| discriminate].
  pose proof (take_while_keeps link_char r7) as Hk.
  destruct (take_while link_char r7) as [| c0 g0] eqn:E; [discriminate |].
  intros H. injection H as <- _. split; [discriminate | exact Hk].
Qed.

Lemma link_targets_are_clean_witness :
  "@alice:fedora.im" <> EmptyString /\ all_chars link_char "@alice:fedora.im" = true.
Proof.
  apply (link_targets_are_clean Fixtures.user_and_room "@alice:fedora.im").
  vm_compute. left. reflexivity.
Defined.

(** X8: in every match of the chat-identity pattern, neither part
    holds a line feed and the domain part holds no colon. *)
Theorem parsed_identity_parts (s l d : string) :
  In (l, d) (findall_mxid s) ->
  all_chars dot l = true /\ all_chars dot d = true /\ all_chars no_colon d = true.
Proof.
  unfold findall_mxid, findall.
  apply (findall_from_In match_mxid_at
           (fun g => all_chars dot (fst g) = true /\ all_chars dot (snd g) = true
                     /\ all_chars no_colon (snd g) = true) ).
  intros s0 [a b] n. unfold match_mxid_at.
  destruct s0 as [| c r]; [discriminate |].
  destruct (Ascii.eqb c "@"%char); [| discriminate].
  destruct (rsplit_colon (take_while dot r)) as [[a' b'] |] eqn:E; [| discriminate].
  intros H. injection H as <- <- _.
  destruct (rsplit_colon_parts _ _ _ E) as [Hs Hb].
  pose proof (take_while_keeps dot r) as Hk. rewrite Hs in Hk.
  rewrite all_chars_app in Hk. apply andb_true_iff in Hk as [Ha Hk].
  simpl in Hk. cbn [fst snd]. repeat split; [exact Ha | exact Hk | exact Hb].
Qed.

Lemma parsed_identity_parts_witness :
  all_chars dot "carol:example.org" = true /\ all_chars dot "8448" = true
  /\ all_chars no_colon "8448" = true.
Proof.
  apply (parsed_identity_parts "say @carol:example.org:8448" "carol:example.org" "8448").
  vm_compute. left. reflexivity.
Defined.

(** ** The group commands *)

Lemma group_members_raises (self : Fedora) (c : Client) (groupname text : string)
      (code : Z) :
  fasjsonclient self = Some c ->
  list_group_members c groupname = Raises (APIError code text) ->
  _get_group_members self groupname
  = ([FasListGroupMembers groupname],
     Raises (if Z.eqb code 404
             then InfoGatherError ("Sorry, but group '" ++ groupname ++ "' does not exist")
             else UnboundLocalError "members")).
Proof.
  intros Hc Hg.
  unfold _get_group_members, catch_generic_fasjson_errors, _get_group_members_body, fasjson.
  rewrite Hc, bind_ret_l, Hg. cbn. destruct (Z.eqb code 404); reflexivity.
Qed.

Lemma group_sponsors_raises (self : Fedora) (c : Client) (groupname text : string)
      (code : Z) :
  fasjsonclient self = Some c ->
  list_group_sponsors c groupname = Raises (APIError code text) ->
  _get_group_sponsors self groupname
  = ([FasListGroupSponsors groupname],
     Raises (if Z.eqb code 404
             then InfoGatherError ("Sorry, but group '" ++ groupname ++ "' does not exist")
             else UnboundLocalError "sponsors")).
Proof.
  intros Hc Hg.
  unfold _get_group_sponsors, catch_generic_fasjson_errors, _get_group_sponsors_body,
    fasjson.
  rewrite Hc, bind_ret_l, Hg. cbn. destruct (Z.eqb code 404); reflexivity.
Qed.

(** X9: when the directory answers a group query with an APIError,
    the code 404 makes the members and sponsors commands reply that
    the group does not exist; any other code makes them end in
    UnboundLocalError, for members and sponsors respectively, with no
    reply. *)
Theorem group_lookup_api_error (py_repr : value -> string) (self : Fedora) (c : Client)
        (evt : MessageEvent) (groupname text : string) (code : Z) :
  fasjsonclient self = Some c ->
  groupname <> EmptyString ->
  (list_group_members c groupname = Raises (APIError code text) ->
   (code = 404%Z ->
    members py_repr self evt groupname
    = ([FasListGroupMembers groupname;
        Respond ("Sorry, but group '" ++ groupname ++ "' does not exist")], Returns tt))
   /\ (code <> 404%Z ->
       members py_repr self evt groupname
       = ([FasListGroupMembers groupname], Raises (UnboundLocalError "members"))))
  /\ (list_group_sponsors c groupname = Raises (APIError code text) ->
      (code = 404%Z ->
       sponsors py_repr self evt groupname
       = ([FasListGroupSponsors groupname;
           Respond ("Sorry, but group '" ++ groupname ++ "' does not exist")], Returns tt))
      /\ (code <> 404%Z ->
          sponsors py_repr self evt groupname
          = ([FasListGroupSponsors groupname], Raises (UnboundLocalError "sponsors")))).
Proof.
  intros Hc Hne. split; intros Hg; split; intros Hcode.
  - unfold members.
    destruct (String.eqb_spec groupname EmptyString) as [E | _]; [contradiction |].
    rewrite (group_members_raises self c groupname text code Hc Hg). subst code.
    reflexivity.
  - unfold members.
    destruct (String.eqb_spec groupname EmptyString) as [E | _]; [contradiction |].
    rewrite (group_members_raises self c groupname text code Hc Hg).
    destruct (Z.eqb_spec code 404); [contradiction | reflexivity].
  - unfold sponsors.
    destruct (String.eqb_spec groupname EmptyString) as [E | _]; [contradiction |].
    rewrite (group_sponsors_raises self c groupname text code Hc Hg). subst code.
    reflexivity.
  - unfold sponsors.
    destruct (String.eqb_spec groupname EmptyString) as [E | _]; [contradiction |].
    rewrite (group_sponsors_raises self c groupname text code Hc Hg).
    destruct (Z.eqb_spec code 404); [contradiction | reflexivity].
Qed.

Lemma group_lookup_api_error_witness :
  members Fixtures.repr0 (Fixtures.plugin (Some MoreFixtures.directory_carol))
    (Fixtures.plain "@bob:fedora.im") "nogroup"
  = ([FasListGroupMembers "nogroup";
      Respond "Sorry, but group 'nogroup' does not exist"], Returns tt)
  /\ sponsors Fixtures.repr0 (Fixtures.plugin (Some MoreFixtures.directory_carol))
       (Fixtures.plain "@bob:fedora.im") "designteam"
     = ([FasListGroupSponsors "designteam"], Raises (UnboundLocalError "sponsors")).
Proof.
  split.
  - refine (proj1 (proj1 (group_lookup_api_error Fixtures.repr0
              (Fixtures.plugin (Some MoreFixtures.directory_carol))
              MoreFixtures.directory_carol (Fixtures.plain "@bob:fedora.im")
              "nogroup" "Not Found" 404 eq_refl _) eq_refl) eq_refl).
    discriminate.
  - refine (proj2 (proj2 (group_lookup_api_error Fixtures.repr0
              (Fixtures.plugin (Some MoreFixtures.directory_carol))
              MoreFixtures.directory_carol (Fixtures.plain "@bob:fedora.im")
              "designteam" "Service Unavailable" 503 eq_refl _) eq_refl) _);
      discriminate.
Defined.

Lemma userlinks_total (py_repr : value -> string) (self : Fedora) (group : list value) :
  forallb has_username group = true ->
  exists text, userlinks py_repr self group = Returns text.
Proof.
  intros H. rewrite (userlinks_enumerates py_repr self group H). eexists. reflexivity.
Qed.

(** X10: the members and sponsors commands return after exactly one
    reply whenever the directory answers with records that carry a
    username, with the code 404 or with a failed session; with the
    client handle absent, and for an empty group name in every case,
    they also reply once, and issue no network call. *)
Theorem group_commands_reply_once (py_repr : value -> string) (self : Fedora)
        (evt : MessageEvent) (groupname : string) :
  (forall c, fasjsonclient self = Some c ->
             group_answer_ok (list_group_members c groupname) = true ->
             result (members py_repr self evt groupname) = Returns tt
             /\ List.length (replies (members py_repr self evt groupname)) = 1)
  /\ (forall c, fasjsonclient self = Some c ->
                group_answer_ok (list_group_sponsors c groupname) = true ->
                result (sponsors py_repr self evt groupname) = Returns tt
                /\ List.length (replies (sponsors py_repr self evt groupname)) = 1)
  /\ (fasjsonclient self = None ->
      result (members py_repr self evt groupname) = Returns tt
      /\ List.length (replies (members py_repr self evt groupname)) = 1
      /\ network_calls (members py_repr self evt groupname) = []
      /\ result (sponsors py_repr self evt groupname) = Returns tt
      /\ List.length (replies (sponsors py_repr self evt groupname)) = 1
      /\ network_calls (sponsors py_repr self evt groupname) = [])
  /\ (groupname = EmptyString ->
      result (members py_repr self evt groupname) = Returns tt
      /\ List.length (replies (members py_repr self evt groupname)) = 1
      /\ network_calls (members py_repr self evt groupname) = []
      /\ result (sponsors py_repr self evt groupname) = Returns tt
      /\ List.length (replies (sponsors py_repr self evt groupname)) = 1
      /\ network_calls (sponsors py_repr self evt groupname) = []).
Proof.
  split; [| split; [| split]]; [| | | intros ->; repeat split].
  - intros c Hc Hok. unfold members.
    destruct (String.eqb groupname EmptyString); [split; reflexivity |].
    destruct (list_group_members c groupname) as [ms | e] eqn:Hm.
    + rewrite (group_members_fetched self c groupname ms Hc Hm).
      cbn [group_answer_ok] in Hok. unfold or_respond. cbn [bind ret try_except app].
      destruct (Nat.ltb 200 (List.length ms)); [split; reflexivity |].
      destruct (userlinks_total py_repr self ms Hok) as [text ->]. split; reflexivity.
    + destruct e; try discriminate Hok.
      * unfold _get_group_members.
        rewrite (guard_converts_setup_error _ self c [FasListGroupMembers groupname]
                   text Hc); [split; reflexivity |].
        unfold _get_group_members_body, fasjson. rewrite Hc, bind_ret_l, Hm. reflexivity.
      * rewrite (group_members_raises self c groupname text code Hc Hm).
        cbn [group_answer_ok] in Hok. rewrite Hok. split; reflexivity.
  - intros c Hc Hok. unfold sponsors.
    destruct (String.eqb groupname EmptyString); [split; reflexivity |].
    destruct (list_group_sponsors c groupname) as [ss | e] eqn:Hm.
    + rewrite (group_sponsors_fetched self c groupname ss Hc Hm).
      cbn [group_answer_ok] in Hok. unfold or_respond. cbn [bind ret try_except app].
      destruct (userlinks_total py_repr self ss Hok) as [text ->]. split; reflexivity.
    + destruct e; try discriminate Hok.
      * unfold _get_group_sponsors.
        rewrite (guard_converts_setup_error _ self c [FasListGroupSponsors groupname]
                   text Hc); [split; reflexivity |].
        unfold _get_group_sponsors_body, fasjson. rewrite Hc, bind_ret_l, Hm. reflexivity.
      * rewrite (group_sponsors_raises self c groupname text code Hc Hm).
        cbn [group_answer_ok] in Hok. rewrite Hok. split; reflexivity.
  - intros Hn. unfold members, sponsors.
    destruct (String.eqb groupname EmptyString); [repeat split |].
    rewrite (guard_absent _ self Hn : _get_group_members self groupname = _).
    rewrite (guard_absent _ self Hn : _get_group_sponsors self groupname = _).
    repeat split.
Qed.

Lemma group_commands_reply_once_witness :
  result (members Fixtures.repr0 (Fixtures.plugin (Some Fixtures.directory))
            (Fixtures.plain "@bob:fedora.im") "designteam") = Returns tt
  /\ List.length (replies (members Fixtures.repr0
                             (Fixtures.plugin (Some Fixtures.directory))
                             (Fixtures.plain "@bob:fedora.im") "designteam")) = 1.
Proof.
  exact (proj1 (group_commands_reply_once Fixtures.repr0
                  (Fixtures.plugin (Some Fixtures.directory))
                  (Fixtures.plain "@bob:fedora.im") "designteam")
           Fixtures.directory eq_refl eq_refl).
Defined.

(** ** One message or an exception *)

Lemma tail_lift {A : Type} (o : outcome A) (k : A -> M unit) :
  (forall a, one_message_or_raise (k a)) -> one_message_or_raise (bind (lift o) k).
Proof.
  intros H. destruct o as [a | e].
  - rewrite lift_returns, bind_ret_l. apply H.
  - right. exists e. reflexivity.
Qed.

Lemma tail_respond (text : string) : one_message_or_raise (respond text).
Proof. left. exists (Respond text). split; reflexivity. Qed.

Lemma tail_reply (text : string) : one_message_or_raise (reply text).
Proof. left. exists (Reply text). split; reflexivity. Qed.

Lemma replies_app {A B : Type} (t1 t2 : list event) (r1 : outcome A) (r2 : outcome B) :
  replies ((t1 ++ t2)%list, r1) = (replies (t1, r2) ++ replies (t2, r2))%list.
Proof. unfold replies, events. simpl. apply filter_app. Qed.

(** A fetch that sends no message, then a tail. *)
Lemma fetch_then_tail {A : Type} (fetch : M A) (k : option A -> M unit) :
  replies fetch = [] ->
  k None = ret tt ->
  (forall a, one_message_or_raise (k (Some a))) ->
  replied_once_or_raised (bind (or_respond fetch) k).
Proof.
  intros Hq Hnone Hsome. destruct fetch as [t [a | e]].
  - rewrite (or_respond_returns _ t a eq_refl). unfold bind.
    destruct (Hsome a) as [[msg [Hmsg ->]] | [e ->]].
    + left. split; [reflexivity |].
      unfold replies, events in *. simpl in *. rewrite filter_app, Hq. simpl.
      rewrite Hmsg. reflexivity.
    + right. exists e. split; [reflexivity |].
      unfold replies, events in *. simpl in *. rewrite app_nil_r. exact Hq.
  - destruct e;
      try (right; eexists; split;
           [unfold or_respond; reflexivity | unfold or_respond; exact Hq]).
    left. rewrite (or_respond_reports _ t message eq_refl). unfold bind.
    rewrite Hnone. unfold ret. split; [reflexivity |].
    unfold replies, events in *. simpl in *.
    rewrite app_nil_r, filter_app, Hq. reflexivity.
Qed.

Lemma resolver_sends_nothing (self : Fedora) (username : string) (evt : MessageEvent) :
  replies (_get_fasuser self username evt) = [].
Proof.
  unfold replies.
  destruct (resolver_events self username evt) as [E | [[u E] | [k E]]]; rewrite E;
    reflexivity.
Qed.

Lemma group_members_sends_nothing (self : Fedora) (groupname : string) :
  replies (_get_group_members self groupname) = [].
Proof.
  unfold replies.
  destruct (guard_events (_get_group_members_body groupname) self) as [E | E];
    unfold _get_group_members; rewrite E; [reflexivity |].
  unfold _get_group_members_body, fasjson.
  destruct (fasjsonclient self) as [c |]; [| reflexivity]. rewrite bind_ret_l.
  destruct (list_group_members c groupname) as [ms | e]; [reflexivity |].
  destruct e; try reflexivity. cbn. destruct (Z.eqb code 404); reflexivity.
Qed.

Lemma group_sponsors_sends_nothing (self : Fedora) (groupname : string) :
  replies (_get_group_sponsors self groupname) = [].
Proof.
  unfold replies.
  destruct (guard_events (_get_group_sponsors_body groupname) self) as [E | E];
    unfold _get_group_sponsors; rewrite E; [reflexivity |].
  unfold _get_group_sponsors_body, fasjson.
  destruct (fasjsonclient self) as [c |]; [| reflexivity]. rewrite bind_ret_l.
  destruct (list_group_sponsors c groupname) as [ss | e]; [reflexivity |].
  destruct e; try reflexivity. cbn. destruct (Z.eqb code 404); reflexivity.
Qed.

Ltac close_tail :=
  repeat first
    [ apply tail_respond
    | apply tail_reply
    | apply tail_lift; intros ?
    | match goal with
      | |- one_message_or_raise (if ?b then _ else _) => destruct b
      end ].

(** X11: each of hello, user, localtime, members and sponsors, on
    every input and for every answer of the directory, either returns
    after exactly one message to the room, or raises having sent none:
    no command sends two messages, and none returns silently. *)
Theorem directory_commands_reply_once_or_raise (py_repr : value -> string)
        (local_time : value -> outcome string) (self : Fedora) (evt : MessageEvent)
        (argument : string) :
  replied_once_or_raised (hello py_repr self evt argument)
  /\ replied_once_or_raised (user py_repr self evt argument)
  /\ replied_once_or_raised (localtime py_repr local_time self evt argument)
  /\ replied_once_or_raised (members py_repr self evt argument)
  /\ replied_once_or_raised (sponsors py_repr self evt argument).
Proof.
  repeat split.
  - unfold hello. apply fetch_then_tail;
      [apply resolver_sends_nothing | reflexivity | intros u].
    apply tail_lift; intros human_name. apply tail_lift; intros name.
    apply tail_lift; intros pronouns.
    match goal with |- one_message_or_raise (bind ?m _) =>
      assert (Hm : (exists s, m = ret s) \/ (exists e, m = raise e)) end.
    { destruct (Py.truthy pronouns); [| left; eexists; reflexivity].
      destruct (join_iter " or " pronouns) as [j | e];
        [left; eexists; reflexivity | right; eexists; reflexivity]. }
    destruct Hm as [[s ->] | [e ->]].
    + rewrite bind_ret_l. apply tail_respond.
    + right. exists e. reflexivity.
  - unfold user. apply fetch_then_tail;
      [apply resolver_sends_nothing | reflexivity | intros u]. close_tail.
  - unfold localtime. apply fetch_then_tail;
      [apply resolver_sends_nothing | reflexivity | intros u].
    apply tail_lift. intros tz.
    assert (Hzone :
              one_message_or_raise
                (time <- try_except
                           (t <- lift (local_time tz) ;; ret (Some t))
                           (fun _ =>
                              Some (name <- lift (Py.get u "username") ;;
                                    reply ("The timezone of " ++ quoted (str py_repr name)
                                             ++ " was unknown: "
                                             ++ quoted (str py_repr tz)) ;;
                                    ret None)) ;;
                 match time with
                 | None => ret tt
                 | Some hhmm =>
                     name <- lift (Py.get u "username") ;;
                     respond ("The current local time of " ++ quoted (str py_repr name)
                                ++ " is: " ++ quoted hhmm ++ " (timezone: "
                                ++ str py_repr tz ++ ")")
                 end)).
    { destruct (local_time tz) as [hhmm | e].
      - rewrite lift_returns, bind_ret_l, try_except_ret, bind_ret_l. close_tail.
      - unfold lift, bind at 2, try_except.
        destruct (Py.get u "username") as [name | e'].
        + left. eexists. split; [| reflexivity]. reflexivity.
        + right. exists e'. reflexivity. }
    destruct tz; try exact Hzone. close_tail.
  - unfold members. destruct (String.eqb argument EmptyString).
    + left. split; reflexivity.
    + apply fetch_then_tail;
        [apply group_members_sends_nothing | reflexivity | intros ms]. close_tail.
  - unfold sponsors. destruct (String.eqb argument EmptyString).
    + left. split; reflexivity.
    + apply fetch_then_tail;
        [apply group_sponsors_sends_nothing | reflexivity | intros ss]. close_tail.
Qed.

(** ** The replies of hello and user *)

Lemma getitem_dict (k : string) (d : list (string * value)) (x : value) :
  Py.lookup k d = Some x -> Py.getitem (VDict d) k = Returns x.
Proof. intros H. unfold Py.getitem. rewrite H. reflexivity. Qed.

Lemma getitem_missing (k : string) (d : list (string * value)) :
  Py.lookup k d = None -> Py.getitem (VDict d) k = Raises (KeyError k).
Proof. intros H. unfold Py.getitem. rewrite H. reflexivity. Qed.

Lemma join_iter_strings (sep : string) (names : list string) :
  join_iter sep (VList (map VStr names)) = Returns (PyStr.join sep names).
Proof. unfold join_iter, Py.iter, Py.join. rewrite all_str_strings. reflexivity. Qed.

Lemma bind_returns {A B : Type} (t : list event) (a : A) (k : A -> M B) :
  bind (t, Returns a) k = ((t ++ events (k a))%list, result (k a)).
Proof. unfold bind, events, result. destruct (k a). reflexivity. Qed.

(** X12: for a resolved record, hello replies with the human name and
    the username in parentheses, followed by the pronouns joined with
    or when the record has a non-empty list of them; a record without
    the human_name or the username entry makes hello raise KeyError
    with no reply. *)
Theorem hello_reply_format (py_repr : value -> string) (self : Fedora)
        (evt : MessageEvent) (username : string) (t : list event)
        (d : list (string * value)) :
  _get_fasuser self username evt = (t, Returns (VDict d)) ->
  (forall human_name name,
      Py.lookup "human_name" d = Some human_name ->
      Py.lookup "username" d = Some name ->
      (Py.truthy (field "pronouns" d) = false ->
       hello py_repr self evt username
       = ((t ++ [Respond (str py_repr human_name ++ " (" ++ str py_repr name ++ ")")])%list,
          Returns tt))
      /\ (forall pronouns,
            pronouns <> [] ->
            field "pronouns" d = VList (map VStr pronouns) ->
            hello py_repr self evt username
            = ((t ++ [Respond ((str py_repr human_name ++ " (" ++ str py_repr name ++ ")")
                                 ++ " - " ++ PyStr.join " or " pronouns)])%list,
               Returns tt)))
  /\ (Py.lookup "human_name" d = None ->
      hello py_repr self evt username = (t, Raises (KeyError "human_name")))
  /\ (forall human_name,
        Py.lookup "human_name" d = Some human_name ->
        Py.lookup "username" d = None ->
        hello py_repr self evt username = (t, Raises (KeyError "username"))).
Proof.
  intros Hr. unfold hello. rewrite (or_respond_returns _ t (VDict d) Hr), bind_returns.
  split; [intros human_name name Hh Hu; split | split].
  - intros Hp. rewrite (getitem_dict _ _ _ Hh), (getitem_dict _ _ _ Hu), get_dict.
    rewrite !lift_returns, !bind_ret_l, Hp, bind_ret_l. reflexivity.
  - intros pronouns Hne Hp.
    rewrite (getitem_dict _ _ _ Hh), (getitem_dict _ _ _ Hu), get_dict.
    rewrite !lift_returns, !bind_ret_l, Hp.
    destruct pronouns as [| p ps]; [contradiction |].
    cbn [Py.truthy map]. change (VStr p :: map VStr ps) with (map VStr (p :: ps)).
    rewrite join_iter_strings, lift_returns, !bind_ret_l. reflexivity.
  - intros Hh. rewrite (getitem_missing _ _ Hh). cbn. rewrite app_nil_r. reflexivity.
  - intros human_name Hh Hu.
    rewrite (getitem_dict _ _ _ Hh), (getitem_missing _ _ Hu).
    rewrite lift_returns, bind_ret_l. cbn. rewrite app_nil_r. reflexivity.
Qed.

Lemma hello_reply_format_witness :
  hello Fixtures.repr0 (Fixtures.plugin (Some MoreFixtures.directory_carol))
    (Fixtures.plain "@bob:fedora.im") "carol"
  = ([FasGetUser "carol"; Respond "Carol (carol) - she/her or they/them"], Returns tt).
Proof.
  refine (proj2 (proj1 (hello_reply_format Fixtures.repr0
            (Fixtures.plugin (Some MoreFixtures.directory_carol))
            (Fixtures.plain "@bob:fedora.im") "carol" [FasGetUser "carol"]
            (match MoreFixtures.carol with VDict d => d | _ => [] end) eq_refl)
            (VStr "Carol") (VStr "carol") eq_refl eq_refl)
            ["she/her"; "they/them"] _ eq_refl).
  discriminate.
Defined.

Ltac run_gets :=
  repeat (progress (rewrite ?get_dict, ?lift_returns, ?bind_ret_l)).

(** X13: for a resolved record, user replies with the seven labelled
    lines; an entry read with get that is missing shows as None, the
    pronouns and the key ids are joined with or and with and, and key
    ids that are None or empty show as None.  The gpgkeyids entry is
    read by subscript: when it is missing, user raises KeyError with no
    reply. *)
Theorem user_reply_format (py_repr : value -> string) (self : Fedora)
        (evt : MessageEvent) (username : string) (t : list event)
        (d : list (string * value)) :
  _get_fasuser self username evt = (t, Returns (VDict d)) ->
  (forall pronouns keys gpgkeyids,
      (field "pronouns" d = VList (map VStr pronouns)
       \/ (Py.truthy (field "pronouns" d) = false /\ pronouns = [])) ->
      Py.lookup "gpgkeyids" d = Some gpgkeyids ->
      ((gpgkeyids = VList (map VStr keys) /\ keys <> [])
       \/ (Py.truthy gpgkeyids = false /\ keys = ["None"])) ->
      user py_repr self evt username
      = ((t ++ [Respond
                  ("User: " ++ str py_repr (field "username" d) ++ "," ++ NL
                     ++ "Name: " ++ str py_repr (field "human_name" d) ++ "," ++ NL
                     ++ "Pronouns: " ++ PyStr.join " or " pronouns ++ "," ++ NL
                     ++ "Creation: " ++ str py_repr (field "creation" d) ++ "," ++ NL
                     ++ "Timezone: " ++ str py_repr (field "timezone" d) ++ "," ++ NL
                     ++ "Locale: " ++ str py_repr (field "locale" d) ++ "," ++ NL
                     ++ "GPG Key IDs: " ++ PyStr.join " and " keys ++ "," ++ NL)])%list,
         Returns tt))
  /\ (forall pronouns,
        (field "pronouns" d = VList (map VStr pronouns)
         \/ (Py.truthy (field "pronouns" d) = false /\ pronouns = [])) ->
        Py.lookup "gpgkeyids" d = None ->
        user py_repr self evt username = (t, Raises (KeyError "gpgkeyids"))).
Proof.
  intros Hr. unfold user. rewrite (or_respond_returns _ t (VDict d) Hr), bind_returns.
  assert (Hpron : forall pronouns,
             (field "pronouns" d = VList (map VStr pronouns)
              \/ (Py.truthy (field "pronouns" d) = false /\ pronouns = [])) ->
             join_iter " or " (Py.or (field "pronouns" d) (VList []))
             = Returns (PyStr.join " or " pronouns)).
  { intros pronouns [Hp | [Hp ->]].
    - rewrite Hp. destruct pronouns as [| p ps]; [reflexivity |].
      unfold Py.or. cbn [Py.truthy map].
      change (VStr p :: map VStr ps) with (map VStr (p :: ps)).
      apply join_iter_strings.
    - unfold Py.or. rewrite Hp. reflexivity. }
  split.
  - intros pronouns keys gpgkeyids Hp Hk Hkeys.
    run_gets. rewrite (Hpron pronouns Hp). run_gets.
    rewrite (getitem_dict _ _ _ Hk). run_gets.
    assert (Hjoin : join_iter " and " (Py.or gpgkeyids (VList [VStr "None"]))
                    = Returns (PyStr.join " and " keys)).
    { destruct Hkeys as [[-> Hne] | [Hf ->]].
      - destruct keys as [| k ks]; [contradiction |].
        unfold Py.or. cbn [Py.truthy map].
        change (VStr k :: map VStr ks) with (map VStr (k :: ks)).
        apply join_iter_strings.
      - unfold Py.or. rewrite Hf. reflexivity. }
    rewrite Hjoin. run_gets. reflexivity.
  - intros pronouns Hp Hk.
    run_gets. rewrite (Hpron pronouns Hp). run_gets.
    rewrite (getitem_missing _ _ Hk). cbn. rewrite app_nil_r. reflexivity.
Qed.

Lemma user_reply_format_witness :
  user Fixtures.repr0 (Fixtures.plugin (Some Fixtures.directory))
    (Fixtures.plain "@bob:fedora.im") "alice"
  = ([FasGetUser "alice";
      Respond ("User: alice," ++ NL ++ "Name: Alice," ++ NL ++ "Pronouns: ," ++ NL
                 ++ "Creation: 2020-01-01T00:00:00Z," ++ NL ++ "Timezone: UTC," ++ NL
                 ++ "Locale: en-US," ++ NL ++ "GPG Key IDs: None," ++ NL)],
     Returns tt).
Proof.
  refine (proj1 (user_reply_format Fixtures.repr0
            (Fixtures.plugin (Some Fixtures.directory))
            (Fixtures.plain "@bob:fedora.im") "alice" [FasGetUser "alice"]
            (match Fixtures.alice with VDict d => d | _ => [] end) eq_refl)
            [] ["None"] VNone _ eq_refl _).
  - right. split; reflexivity.
  - right. split; reflexivity.
Defined.

(** ** The package registry *)

Lemma str_app_nil_r (s : string) : s ++ EmptyString = s.
Proof. induction s as [| c s IH]; [reflexivity | simpl; rewrite IH; reflexivity]. Qed.

(** Joining the lines that are not empty is appending all three. *)
Lemma labelled_lines (owners admins committers : string) :
  PyStr.join EmptyString (filter nonempty [owners; admins; committers])
  = owners ++ admins ++ committers.
Proof.
  unfold nonempty, PyStr.join.
  destruct owners, admins, committers; simpl; rewrite ?str_app_nil_r; reflexivity.
Qed.

Lemma access_users_strings (d users : list (string * value)) (role : string)
      (names : list string) :
  Py.lookup "access_users" d = Some (VDict users) ->
  Py.lookup role users = Some (VList (map VStr names)) ->
  access_users (VDict d) role = Returns (PyStr.join ", " names).
Proof.
  intros Hu Hr. unfold access_users.
  rewrite (getitem_dict _ _ _ Hu), (getitem_dict _ _ _ Hr). apply join_iter_strings.
Qed.

(** X14: whoowns requests the package from the registry.  On a 404
    it replies that the package is not found, without decoding the
    body.  Otherwise it replies with the owner, admin and commit lines,
    in that order, a role without names giving no line; a body that
    does not decode ends the command with the decoder's exception. *)
Theorem whoowns_outcomes (requests_get : string -> outcome Response)
        (evt : MessageEvent) (package : string) (req : Response) :
  requests_get ("https://src.fedoraproject.org/api/0/rpms/" ++ package) = Returns req ->
  let call := HttpGet ("https://src.fedoraproject.org/api/0/rpms/" ++ package) in
  (status_code req = 404%Z ->
   whoowns requests_get evt package
   = ([call; Reply ("Package " ++ package ++ " not found.")], Returns tt))
  /\ (forall d users admins owners committers,
        status_code req <> 404%Z ->
        json req = Returns (VDict d) ->
        Py.lookup "access_users" d = Some (VDict users) ->
        Py.lookup "admin" users = Some (VList (map VStr admins)) ->
        Py.lookup "owner" users = Some (VList (map VStr owners)) ->
        Py.lookup "commit" users = Some (VList (map VStr committers)) ->
        whoowns requests_get evt package
        = ([call;
            Respond (labelled "__owner:__ " (PyStr.join ", " owners)
                       ++ labelled "__admin:__ " (PyStr.join ", " admins)
                       ++ labelled "__commit:__ " (PyStr.join ", " committers))],
           Returns tt))
  /\ (forall e, status_code req <> 404%Z -> json req = Raises e ->
      whoowns requests_get evt package = ([call], Raises e)).
Proof.
  intros Hget call. unfold whoowns. rewrite Hget, bind_perform_returns.
  fold call. repeat split.
  - intros ->. reflexivity.
  - intros d users admins owners committers Hs Hj Hu Ha Ho Hc.
    destruct (Z.eqb_spec (status_code req) 404); [contradiction |].
    rewrite Hj, lift_returns, bind_ret_l.
    rewrite (access_users_strings d users "admin" admins Hu Ha), lift_returns, bind_ret_l.
    rewrite (access_users_strings d users "owner" owners Hu Ho), lift_returns, bind_ret_l.
    rewrite (access_users_strings d users "commit" committers Hu Hc), lift_returns,
      bind_ret_l.
    rewrite labelled_lines. reflexivity.
  - intros e Hs Hj.
    destruct (Z.eqb_spec (status_code req) 404); [contradiction |].
    rewrite Hj. reflexivity.
Qed.

Lemma whoowns_outcomes_witness :
  whoowns (fun _ => Returns MoreFixtures.package_answer) (Fixtures.plain "@bob:fedora.im")
    "kernel"
  = ([HttpGet "https://src.fedoraproject.org/api/0/rpms/kernel";
      Respond ("__owner:__ alice" ++ NL ++ "__commit:__ bob, carol" ++ NL)],
     Returns tt).
Proof.
  refine (proj1 (proj2 (whoowns_outcomes (fun _ => Returns MoreFixtures.package_answer)
            (Fixtures.plain "@bob:fedora.im") "kernel" MoreFixtures.package_answer
            eq_refl))
            [("access_users",
              VDict [("admin", VList []); ("owner", VList [VStr "alice"]);
                     ("commit", VList [VStr "bob"; VStr "carol"])])]
            [("admin", VList []); ("owner", VList [VStr "alice"]);
             ("commit", VList [VStr "bob"; VStr "carol"])]
            [] ["alice"] ["bob"; "carol"] _ eq_refl eq_refl eq_refl eq_refl eq_refl).
  discriminate.
Defined.

(** ** The local time *)

(** X15: for a resolved record, localtime raises KeyError when the
    timezone entry is missing, replies that the user does not share
    their time zone when it is None, replies that the time zone is
    unknown when the clock raises any exception for it, and otherwise
    gives the local time with the name of the zone. *)
Theorem localtime_outcomes (py_repr : value -> string)
        (local_time : value -> outcome string) (self : Fedora) (evt : MessageEvent)
        (username : string) (t : list event) (d : list (string * value)) :
  _get_fasuser self username evt = (t, Returns (VDict d)) ->
  let name := str py_repr (field "username" d) in
  (Py.lookup "timezone" d = None ->
   localtime py_repr local_time self evt username = (t, Raises (KeyError "timezone")))
  /\ (Py.lookup "timezone" d = Some VNone ->
      localtime py_repr local_time self evt username
      = ((t ++ [Reply ("User " ++ quoted name ++ " doesn't share their timezone")])%list,
         Returns tt))
  /\ (forall tz, Py.lookup "timezone" d = Some tz -> tz <> VNone ->
      (forall e, local_time tz = Raises e ->
         localtime py_repr local_time self evt username
         = ((t ++ [Reply ("The timezone of " ++ quoted name ++ " was unknown: "
                            ++ quoted (str py_repr tz))])%list,
            Returns tt))
      /\ (forall hhmm, local_time tz = Returns hhmm ->
          localtime py_repr local_time self evt username
          = ((t ++ [Respond ("The current local time of " ++ quoted name ++ " is: "
                               ++ quoted hhmm ++ " (timezone: " ++ str py_repr tz
                               ++ ")")])%list,
             Returns tt))).
Proof.
  intros Hr name. unfold localtime.
  rewrite (or_respond_returns _ t (VDict d) Hr), bind_returns.
  split; [| split].
  - intros Hz. rewrite (getitem_missing _ _ Hz). cbn. rewrite app_nil_r. reflexivity.
  - intros Hz. rewrite (getitem_dict _ _ _ Hz), lift_returns, bind_ret_l.
    rewrite get_dict, lift_returns, bind_ret_l. reflexivity.
  - intros tz Hz Hnone. rewrite (getitem_dict _ _ _ Hz), lift_returns, bind_ret_l.
    split.
    + intros e He. destruct tz; try contradiction;
        rewrite He, get_dict; reflexivity.
    + intros hhmm Hh. destruct tz; try contradiction;
        rewrite Hh, lift_returns, bind_ret_l, try_except_ret, bind_ret_l,
          get_dict, lift_returns, bind_ret_l; reflexivity.
Qed.

Lemma localtime_outcomes_witness :
  localtime Fixtures.repr0 MoreFixtures.paris_time
    (Fixtures.plugin (Some Fixtures.directory)) (Fixtures.plain "@bob:fedora.im") "alice"
  = ([FasGetUser "alice";
      Reply ("The timezone of " ++ quoted "alice" ++ " was unknown: " ++ quoted "UTC")],
     Returns tt).
Proof.
  refine (proj1 (proj2 (proj2 (localtime_outcomes Fixtures.repr0 MoreFixtures.paris_time
            (Fixtures.plugin (Some Fixtures.directory)) (Fixtures.plain "@bob:fedora.im")
            "alice" [FasGetUser "alice"]
            (match Fixtures.alice with VDict d => d | _ => [] end) eq_refl))
            (VStr "UTC") eq_refl _) (OtherError "UnknownTimeZoneError") eq_refl).
  discriminate.
Defined.

(** ** The issue commands *)

Lemma issue_lookup_outcome (py_repr : value -> string) (self : Fedora)
      (project issue_id : string) (response : Response) (d : list (string * value)) :
  httpx_get self (endpoint self project issue_id EmptyString) = Returns response ->
  json response = Returns (VDict d) ->
  (exists message,
      _get_pagure_issue py_repr self project issue_id EmptyString
      = ([HttpGet (endpoint self project issue_id EmptyString)],
         Raises (InfoGatherError message)))
  \/ _get_pagure_issue py_repr self project issue_id EmptyString
     = ([HttpGet (endpoint self project issue_id EmptyString)], Returns (VDict d)).
Proof.
  intros Hget Hjson.
  rewrite (pagure_issue_unfold py_repr self project issue_id EmptyString response
             (VDict d) Hget Hjson).
  destruct (Z.eqb (status_code response) 404).
  - left. run_gets.
    destruct (Py.eq_str (field "error_code" d) "ENOPROJECT");
      [eexists; reflexivity |].
    destruct (Py.eq_str (field "error_code" d) "ENOISSUE"); eexists; reflexivity.
  - destruct (negb (Z.eqb (status_code response) 200));
      [left; eexists; reflexivity | right; reflexivity].
Qed.

(** X16: the issue command requests the address made of the tracker
    base, a slash (the namespace being empty), the project, issue and
    the id.  When the tracker answers with a JSON object, the command
    sends exactly one reply and returns, whatever the status; an
    exception of the transport leaves the command after the request.
    The commands fpc, epel and fesco are the issue command for their
    project. *)
Theorem issue_commands_reply_once (py_repr : value -> string) (self : Fedora)
        (evt : MessageEvent) (project issue_id : string) :
  let call := HttpGet (pagure_url self ++ "/" ++ project ++ "/issue/" ++ issue_id) in
  (forall response d,
      httpx_get self (endpoint self project issue_id EmptyString) = Returns response ->
      json response = Returns (VDict d) ->
      exists text,
        pagureissue py_repr self evt project issue_id = ([call; Respond text], Returns tt))
  /\ (forall e,
        httpx_get self (endpoint self project issue_id EmptyString) = Raises e ->
        (forall message, e <> InfoGatherError message) ->
        pagureissue py_repr self evt project issue_id = ([call], Raises e))
  /\ fpc py_repr self evt issue_id
     = pagureissue py_repr self evt "packaging-committee" issue_id
  /\ epel py_repr self evt issue_id = pagureissue py_repr self evt "epel" issue_id
  /\ fesco py_repr self evt issue_id = pagureissue py_repr self evt "fesco" issue_id.
Proof.
  intros call. split; [| split; [| repeat split]].
  - intros response d Hget Hjson. unfold pagureissue.
    destruct (issue_lookup_outcome py_repr self project issue_id response d Hget Hjson)
      as [[message E] | E].
    + rewrite (or_respond_reports _ _ message E). eexists. reflexivity.
    + rewrite (or_respond_returns _ _ _ E), bind_returns. run_gets.
      eexists. reflexivity.
  - intros e Hget He. unfold pagureissue.
    rewrite (or_respond_escapes _ [call] e); [reflexivity | | exact He].
    unfold _get_pagure_issue. fold (endpoint self project issue_id EmptyString).
    rewrite Hget. reflexivity.
Qed.

Lemma issue_commands_reply_once_witness :
  exists text,
    pagureissue Fixtures.repr0 (Fixtures.tracker MoreFixtures.issue_answer)
      (Fixtures.plain "@bob:fedora.im") "epel" "123"
    = ([HttpGet "https://pagure.io/api/0//epel/issue/123"; Respond text], Returns tt).
Proof.
  exact (proj1 (issue_commands_reply_once Fixtures.repr0
                  (Fixtures.tracker MoreFixtures.issue_answer)
                  (Fixtures.plain "@bob:fedora.im") "epel" "123")
           MoreFixtures.issue_answer
           [("title", VStr "Update the guidelines");
            ("full_url", VStr "https://pagure.io/epel/issue/123")]
           eq_refl eq_refl).
Defined.

(** ** Start-up *)

(** X17: start never ends in ClientSetupError.  When the constructor
    of the client raises it, start returns a plugin with the tracker
    address set and the handle absent, on which every resolution and
    group query fails with the startup message and no event; when the
    constructor returns a client, the handle holds it. *)
Theorem start_never_fails_on_setup_error (self : Fedora) (config_pagure_url : string)
        (new_client : outcome Client) :
  (forall text, start self config_pagure_url new_client <> Raises (ClientSetupError text))
  /\ (forall text, new_client = Raises (ClientSetupError text) ->
      exists started,
        start self config_pagure_url new_client = Returns started
        /\ pagure_url started = config_pagure_url
        /\ (forall username evt,
              _get_fasuser started username evt
              = ([], Raises (InfoGatherError startup_message)))
        /\ (forall groupname,
              _get_group_members started groupname
              = ([], Raises (InfoGatherError startup_message))
              /\ _get_group_sponsors started groupname
                 = ([], Raises (InfoGatherError startup_message))))
  /\ (forall c, new_client = Returns c ->
      exists started,
        start self config_pagure_url new_client = Returns started
        /\ fasjsonclient started = Some c
        /\ pagure_url started = config_pagure_url
        /\ accounts_baseurl started = accounts_baseurl self).
Proof.
  split; [| split].
  - intros text. unfold start. destruct new_client as [c | e]; [discriminate |].
    destruct e; discriminate.
  - intros text ->. eexists. split; [reflexivity |]. split; [reflexivity |].
    split; [intros username evt | intros groupname; split];
      apply guard_absent; reflexivity.
  - intros c ->. eexists. repeat split.
Qed.

Lemma start_never_fails_on_setup_error_witness :
  exists started,
    start (Fixtures.plugin None) "https://pagure.io/api/0/"
      (Raises (ClientSetupError "no ticket")) = Returns started
    /\ pagure_url started = "https://pagure.io/api/0/".
Proof.
  destruct (proj1 (proj2 (start_never_fails_on_setup_error (Fixtures.plugin None)
                            "https://pagure.io/api/0/"
                            (Raises (ClientSetupError "no ticket"))))
              "no ticket" eq_refl) as [started [Hs [Hp _]]].
  exists started. split; assumption.
Defined.

Lemma issue_lookup_sends_nothing (py_repr : value -> string) (self : Fedora)
      (project issue_id namespace : string) :
  replies (_get_pagure_issue py_repr self project issue_id namespace) = [].
Proof.
  unfold _get_pagure_issue.
  destruct (httpx_get self _) as [response | e]; [| reflexivity].
  rewrite bind_perform_returns. unfold replies. cbn [events fst filter is_network_call negb].
  destruct (json response) as [body | e]; [| reflexivity].
  rewrite lift_returns, bind_ret_l.
  destruct (Z.eqb (status_code response) 404).
  - destruct (Py.get body "error_code") as [code | e]; [| reflexivity].
    rewrite lift_returns, bind_ret_l.
    destruct (Py.get body "error") as [err | e]; [| reflexivity].
    rewrite lift_returns, bind_ret_l.
    destruct (Py.eq_str code "ENOPROJECT"); [reflexivity |].
    destruct (Py.eq_str code "ENOISSUE"); reflexivity.
  - destruct (negb (Z.eqb (status_code response) 200)); reflexivity.
Qed.

(** A call that sends no message, then a tail. *)
Lemma call_then_tail {A : Type} (ev : event) (o : outcome A) (k : A -> M unit) :
  is_network_call ev = true ->
  (forall a, one_message_or_raise (k a)) ->
  replied_once_or_raised (bind (perform ev o) k).
Proof.
  intros Hev Hk. destruct o as [a | e].
  - rewrite bind_perform_returns.
    destruct (Hk a) as [[msg [Hmsg ->]] | [e ->]].
    + left. split; [reflexivity |].
      unfold replies. cbn [events result fst snd filter]. rewrite Hev, Hmsg. reflexivity.
    + right. exists e. split; [reflexivity |].
      unfold replies. cbn [events result fst snd filter]. rewrite Hev. reflexivity.
  - right. exists e. split; [reflexivity |].
    unfold replies. cbn. rewrite Hev. reflexivity.
Qed.

(** X18: each of the issue commands and whoowns, on every input and
    for every answer of the network, either returns after exactly one
    message to the room, or raises having sent none. *)
Theorem registry_commands_reply_once_or_raise (py_repr : value -> string)
        (requests_get : string -> outcome Response) (self : Fedora)
        (evt : MessageEvent) (project argument : string) :
  replied_once_or_raised (pagureissue py_repr self evt project argument)
  /\ replied_once_or_raised (fpc py_repr self evt argument)
  /\ replied_once_or_raised (epel py_repr self evt argument)
  /\ replied_once_or_raised (fesco py_repr self evt argument)
  /\ replied_once_or_raised (whoowns requests_get evt argument).
Proof.
  repeat split.
  - unfold pagureissue. apply fetch_then_tail;
      [apply issue_lookup_sends_nothing | reflexivity | intros issue]. close_tail.
  - unfold fpc. apply fetch_then_tail;
      [apply issue_lookup_sends_nothing | reflexivity | intros issue]. close_tail.
  - unfold epel. apply fetch_then_tail;
      [apply issue_lookup_sends_nothing | reflexivity | intros issue]. close_tail.
  - unfold fesco. apply fetch_then_tail;
      [apply issue_lookup_sends_nothing | reflexivity | intros issue]. close_tail.
  - unfold whoowns. apply call_then_tail; [reflexivity | intros req]. close_tail.
Qed.
